(** * The EPA AQS client of [code/2.EPA_data_acquisition.ipynb]

    A shallow embedding of the notebook's two request functions
    ([request_list_info], [request_daily_summary]), of the cell that
    averages the daily AQI of every fire season, and of the cell that
    filters the resulting table.

    Python dictionaries are finite maps; the request templates live in a
    store of mutable objects, because the functions write into the
    dictionary they are handed (or into the module-level default).  The
    network, the clock and the standard output are a trace of events.

    Strings are strings of bytes; they stand for Python strings of ASCII
    characters, which is what every string of the notebook is.  *)

From Stdlib Require Import Floats.PrimFloat QArith Ascii String.
From stdpp Require Import gmap strings list pretty.

Set Warnings "-register-all,-inexact-float".

Local Open Scope string_scope.
Local Open Scope Z_scope.

(** ** Python values *)

(** The values a request template holds: the source writes strings and
    floats into it; [None] is what an omitted argument is. *)
Inductive pyval :=
  | PNone
  | PStr (s : string)
  | PFloat (f : float).

(** Truth value of [if v:] / [if not v:]. *)
Definition truthy (v : pyval) : bool :=
  match v with
  | PNone => false
  | PStr s => negb (String.eqb s "")
  | PFloat f => negb (PrimFloat.eqb f 0%float)
  end.

(** [if arg:] for an argument that is [None] or a [str]. *)
Definition arg_truthy (a : option string) : bool :=
  match a with
  | Some s => truthy (PStr s)
  | None => false
  end.

(** An instance of [Exception]: its class and its message.  Everything
    that [requests] and the JSON decoder raise is one. *)
Record exn := Exn { exn_class : string; exn_msg : string }.

Definition KeyError (k : string) : exn := Exn "KeyError" ("'" +:+ k +:+ "'").
Definition NameError (n : string) : exn :=
  Exn "NameError" ("name '" +:+ n +:+ "' is not defined").
Definition TypeError (m : string) : exn := Exn "TypeError" m.
Definition ValueError (m : string) : exn := Exn "ValueError" m.
Definition IndexError (m : string) : exn := Exn "IndexError" m.
Definition AttributeError (m : string) : exn := Exn "AttributeError" m.

(** The object [response.json()] returns: [dict], [list], [str], number,
    [bool] or [None].  A [dict] is kept as its items; [assoc] reads the
    first item with the key. *)
Inductive json :=
  | JNull
  | JBool (b : bool)
  | JNum (q : Q)
  | JStr (s : string)
  | JArr (l : list json)
  | JObj (items : list (string * json)).

Fixpoint assoc (k : string) (items : list (string * json)) : option json :=
  match items with
  | [] => None
  | (k', v) :: rest => if String.eqb k k' then Some v else assoc k rest
  end.

(** ** Strings *)

(** [s[:n]] and [s[n:]] for [0 <= n]. *)
Fixpoint str_take (n : nat) (s : string) : string :=
  match n, s with
  | S n', String c s' => String c (str_take n' s')
  | _, _ => ""
  end.

Fixpoint str_drop (n : nat) (s : string) : string :=
  match n, s with
  | S n', String _ s' => str_drop n' s'
  | _, _ => s
  end.

Fixpoint str_prefix (p s : string) : bool :=
  match p, s with
  | "", _ => true
  | String a p', String b s' => Ascii.eqb a b && str_prefix p' s'
  | _, _ => false
  end.

(** [p in s] *)
Fixpoint str_contains (p s : string) : bool :=
  str_prefix p s ||
  match s with
  | "" => false
  | String _ s' => str_contains p s'
  end.

(** ** The world: mutable dictionaries and observable events *)

Definition loc := nat.

Definition headers := option (list (string * string)).

Inductive event :=
  | EvSleep (seconds : float)
  | EvGet (url : string) (hdrs : headers)
  | EvPrint (e : exn).

Record world := World {
  heap : gmap loc (gmap string pyval);
  trace : list event
}.

(** What one [requests.get(url, headers=...)] followed by
    [response.json()] does. *)
Inductive response :=
  | GetRaises (e : exn)
  | JsonRaises (e : exn)
  | JsonIs (doc : json).

(** The result of running a piece of the notebook.  [Unmodelled] marks
    the two places where the Python library does more than this file
    describes (format fields with conversions or indexing, [np.mean] of
    nested lists). *)
Inductive outcome (A : Type) :=
  | Return (a : A)
  | Raise (e : exn)
  | Unmodelled.
Arguments Return {A} a.
Arguments Raise {A} e.
Arguments Unmodelled {A}.

Definition M (A : Type) : Type := world -> outcome A * world.

Definition ret {A} (a : A) : M A := fun w => (Return a, w).
Definition raise {A} (e : exn) : M A := fun w => (Raise e, w).
Definition unmodelled {A} : M A := fun w => (Unmodelled, w).

Definition bind {A B} (m : M A) (k : A -> M B) : M B :=
  fun w =>
    match m w with
    | (Return a, w') => k a w'
    | (Raise e, w') => (Raise e, w')
    | (Unmodelled, w') => (Unmodelled, w')
    end.

Declare Scope py_scope.
Delimit Scope py_scope with py.
Notation "x <- m ;; k" := (bind m (fun x => k))
  (at level 100, m at next level, right associativity) : py_scope.
Notation "m ;; k" := (bind m (fun _ => k))
  (at level 100, right associativity) : py_scope.
Local Open Scope py_scope.

(** [try: body  except Exception as e: handler(e)] *)
Definition try_except {A} (body : M A) (handler : exn -> M A) : M A :=
  fun w =>
    match body w with
    | (Raise e, w') => handler e w'
    | r => r
    end.

(** [if c: body] *)
Definition when (c : bool) (body : M unit) : M unit :=
  if c then body else ret tt.

(** The dictionary stored at [l]. *)
Definition dict_at (w : world) (l : loc) : gmap string pyval :=
  heap w !!! l.

Definition get_dict (l : loc) : M (gmap string pyval) :=
  fun w => (Return (dict_at w l), w).

(** [d[k] = v] *)
Definition setitem (l : loc) (k : string) (v : pyval) : M unit :=
  fun w => (Return tt,
            World (<[l := <[k := v]> (dict_at w l)]> (heap w)) (trace w)).

(** [d[k]] *)
Definition getitem (l : loc) (k : string) : M pyval :=
  fun w =>
    match dict_at w l !! k with
    | Some v => (Return v, w)
    | None => (Raise (KeyError k), w)
    end.

(** [d.copy()] *)
Definition dict_copy (l : loc) : M loc :=
  fun w =>
    let l' := fresh (dom (heap w)) in
    (Return l', World (<[l' := dict_at w l]> (heap w)) (trace w)).

Definition emit (ev : event) : M unit :=
  fun w => (Return tt, World (heap w) (trace w ++ [ev])%list).

Definition sleep (seconds : float) : M unit := emit (EvSleep seconds).
Definition print (e : exn) : M unit := emit (EvPrint e).

Definition is_get (ev : event) : bool :=
  match ev with EvGet _ _ => true | _ => false end.

(** Number of requests sent so far. *)
Definition gets (t : list event) : nat := length (List.filter is_get t).

(** ** Constants of the notebook *)

Definition API_REQUEST_URL : string := "https://aqs.epa.gov/data/api".

Definition API_ACTION_SIGNUP : string := "/signup?email={email}".
Definition API_ACTION_LIST_CLASSES : string :=
  "/list/classes?email={email}&key={key}".
Definition API_ACTION_LIST_PARAMS : string :=
  "/list/parametersByClass?email={email}&key={key}&pc={pclass}".
Definition API_ACTION_LIST_SITES : string :=
  "/list/sitesByCounty?email={email}&key={key}&state={state}&county={county}".
Definition API_ACTION_MONITORS_COUNTY : string :=
  "/monitors/byCounty?email={email}&key={key}&param={param}&bdate={begin_date}&edate={end_date}&state={state}&county={county}".
Definition API_ACTION_MONITORS_BOX : string :=
  "/monitors/byBox?email={email}&key={key}&param={param}&bdate={begin_date}&edate={end_date}&minlat={minlat}&maxlat={maxlat}&minlon={minlon}&maxlon={maxlon}".
Definition API_ACTION_DAILY_SUMMARY_COUNTY : string :=
  "/dailyData/byCounty?email={email}&key={key}&param={param}&bdate={begin_date}&edate={end_date}&state={state}&county={county}".
Definition API_ACTION_DAILY_SUMMARY_BOX : string :=
  "/dailyData/byBox?email={email}&key={key}&param={param}&bdate={begin_date}&edate={end_date}&minlat={minlat}&maxlat={maxlat}&minlon={minlon}&maxlon={maxlon}".

(** [API_LATENCY_ASSUMED = 0.002] and
    [API_THROTTLE_WAIT = (1.0/100.0)-API_LATENCY_ASSUMED], in binary64 as
    Python computes them; [time.sleep] takes seconds. *)
Definition API_LATENCY_ASSUMED : float := 0.002%float.
Definition API_THROTTLE_WAIT : float :=
  (1.0 / 100.0 - API_LATENCY_ASSUMED)%float.

(** The module-level template object.  It is created once; a function
    whose [request_template] parameter is omitted receives this very
    object. *)
Definition AQS_REQUEST_TEMPLATE : loc := 0%nat.

Definition AQS_REQUEST_TEMPLATE_init : gmap string pyval :=
  <["email" := PStr ""]> (
  <["key" := PStr ""]> (
  <["state" := PStr ""]> (
  <["county" := PStr ""]> (
  <["begin_date" := PStr ""]> (
  <["end_date" := PStr ""]> (
  <["minlat" := PFloat 0.0]> (
  <["maxlat" := PFloat 0.0]> (
  <["minlon" := PFloat 0.0]> (
  <["maxlon" := PFloat 0.0]> (
  <["param" := PStr ""]> (
  <["pclass" := PStr ""]> ∅))))))))))).

(** The world after the constants cell has run. *)
Definition world0 : world :=
  World {[ AQS_REQUEST_TEMPLATE := AQS_REQUEST_TEMPLATE_init ]} [].

Definition AQI_PARAM_CLASS : string := "AQI POLLUTANTS".
Definition AQI_PARAMS_GASEOUS : string := "42101,42401,42602,44201".
Definition AQI_PARAMS_PARTICULATES : string := "81102,88101,88502".
Definition CITY_LOCATIONS_fips : string := "46103".
Definition USERNAME : string := "adts@uw.edu".
Definition APIKEY : string := "greykit72".

(** ** [str.format] with keyword arguments

    The format strings of the notebook consist of literal text and plain
    replacement fields [{name}].  [py_format] follows Python on these,
    on the doubled braces and on the malformed strings; a field that
    uses a conversion, a format specification, attribute access or
    indexing, or whose name is a numeral that Python would normalise,
    is [FmtUnmodelled]. *)
Inductive fmt_result :=
  | FmtOk (s : string)
  | FmtRaise (e : exn)
  | FmtUnmodelled.

Definition fmt_app (p : string) (r : fmt_result) : fmt_result :=
  match r with
  | FmtOk s => FmtOk (p +:+ s)
  | _ => r
  end.

Definition is_char (c : ascii) (d : string) : bool :=
  String.eqb (String c "") d.

(** The characters that make a replacement field more than a plain
    name: nesting, conversion, format specification, attribute access,
    indexing, and anything outside ASCII. *)
Definition field_special (c : ascii) : bool :=
  is_char c "{" || is_char c "!" || is_char c ":" || is_char c "."
  || is_char c "[" || is_char c "]" || (128 <=? N_of_ascii c)%N.

Definition is_digit (c : ascii) : bool :=
  let n := N_of_ascii c in (48 <=? n)%N && (n <=? 57)%N.

Fixpoint all_digits (s : string) : bool :=
  match s with
  | "" => true
  | String c s' => is_digit c && all_digits s'
  end.

(** A numeral as Python prints it back: no leading zero, and short
    enough not to overflow. *)
Definition plain_numeral (s : string) : bool :=
  (String.length s <=? 18)%nat && all_digits s &&
  match s with
  | "" => false
  | String c "" => true
  | String c _ => negb (is_char c "0")
  end.

Section Client.

(** What lies outside the notebook: [repr] of a float, and the remote
    service.  [net n url hdrs] is what the [n]-th request of the run
    does when it asks for [url]. *)
Variable float_repr : float -> string.
Variable net : nat -> string -> headers -> response.

(** [format(v, '')] *)
Definition py_str (v : pyval) : string :=
  match v with
  | PNone => "None"
  | PStr s => s
  | PFloat f => float_repr f
  end.

(** The value of the replacement field [name].  An empty name or a
    number asks for a positional argument, and none is ever passed. *)
Definition format_field (kw : gmap string pyval) (name : string)
  : fmt_result :=
  if String.eqb name "" || plain_numeral name then
    FmtRaise (IndexError ("Replacement index "
                          +:+ (if String.eqb name "" then "0" else name)
                          +:+ " out of range for positional args tuple"))
  else if all_digits name then FmtUnmodelled
  else
    match kw !! name with
    | Some v => FmtOk (py_str v)
    | None => FmtRaise (KeyError name)
    end.

(** [field] is [None] in literal text and [Some name] inside a
    replacement field whose name so far is [name]. *)
Fixpoint py_format_go (kw : gmap string pyval) (field : option string)
  (s : string) : fmt_result :=
  match field, s with
  | None, "" => FmtOk ""
  | None, String c rest =>
      if is_char c "{" then
        match rest with
        | "" => FmtRaise (ValueError "Single '{' encountered in format string")
        | String c' rest' =>
            if is_char c' "{" then fmt_app "{" (py_format_go kw None rest')
            else py_format_go kw (Some "") rest
        end
      else if is_char c "}" then
        match rest with
        | String c' rest' =>
            if is_char c' "}" then fmt_app "}" (py_format_go kw None rest')
            else FmtRaise (ValueError "Single '}' encountered in format string")
        | "" => FmtRaise (ValueError "Single '}' encountered in format string")
        end
      else fmt_app (String c "") (py_format_go kw None rest)
  | Some name, "" => FmtRaise (ValueError "expected '}' before end of string")
  | Some name, String c rest =>
      if is_char c "}" then
        match format_field kw name with
        | FmtOk v => fmt_app v (py_format_go kw None rest)
        | r => r
        end
      else if field_special c then FmtUnmodelled
      else py_format_go kw (Some (name +:+ String c "")) rest
  end.

(** [fmt.format] applied to the unpacked dictionary [kw] *)
Definition py_format (fmt : string) (kw : gmap string pyval) : fmt_result :=
  py_format_go kw None fmt.

Definition lift_fmt (r : fmt_result) : M string :=
  match r with
  | FmtOk s => ret s
  | FmtRaise e => raise e
  | FmtUnmodelled => unmodelled
  end.

(** [requests.get(url, headers=hdrs)] followed by [.json()]: the request
    is sent, and either step may raise. *)
Definition requests_get_json (url : string) (hdrs : headers) : M json :=
  fun w =>
    let w' := World (heap w) (trace w ++ [EvGet url hdrs])%list in
    match net (gets (trace w)) url hdrs with
    | GetRaises e => (Raise e, w')
    | JsonRaises e => (Raise e, w')
    | JsonIs doc => (Return doc, w')
    end.

(** [if arg: template[k] = arg] *)
Definition set_if_given (arg : option string) (l : loc) (k : string)
  : M unit :=
  match arg with
  | Some s => when (truthy (PStr s)) (setitem l k (PStr s))
  | None => ret tt
  end.

(** [if not template[k]: raise Exception(msg)] *)
Definition require (l : loc) (k : string) (msg : string) : M unit :=
  v <- getitem l k ;;
  when (negb (truthy v)) (raise (Exn "Exception" msg)).

(** [request_list_info], source lines 184-217.  An omitted parameter is
    [None] here and takes the default of the Python signature; the
    returned [None] is [JNull]. *)
Definition request_list_info
    (email_address key : option string)
    (endpoint_url endpoint_action : option string)
    (request_template : option loc) (hdrs : headers) : M json :=
  let endpoint_url := default API_REQUEST_URL endpoint_url in
  let endpoint_action := default API_ACTION_LIST_CLASSES endpoint_action in
  let request_template := default AQS_REQUEST_TEMPLATE request_template in
  set_if_given email_address request_template "email" ;;
  set_if_given key request_template "key" ;;
  require request_template "email"
    "Must supply an email address to call 'request_list_info()'" ;;
  require request_template "key"
    "Must supply a key to call 'request_list_info()'" ;;
  kw <- get_dict request_template ;;
  path <- lift_fmt (py_format endpoint_action kw) ;;
  let request_url := endpoint_url +:+ path in
  try_except
    (when (PrimFloat.ltb 0 API_THROTTLE_WAIT) (sleep API_THROTTLE_WAIT) ;;
     requests_get_json request_url hdrs)
    (fun e => print e ;; ret JNull).

(** [request_daily_summary], source lines 599-648. *)
Definition request_daily_summary
    (email_address key param begin_date end_date fips : option string)
    (endpoint_url endpoint_action : option string)
    (request_template : option loc) (hdrs : headers) : M json :=
  let endpoint_url := default API_REQUEST_URL endpoint_url in
  let endpoint_action :=
    default API_ACTION_DAILY_SUMMARY_COUNTY endpoint_action in
  let request_template := default AQS_REQUEST_TEMPLATE request_template in
  set_if_given email_address request_template "email" ;;
  set_if_given key request_template "key" ;;
  set_if_given param request_template "param" ;;
  set_if_given begin_date request_template "begin_date" ;;
  set_if_given end_date request_template "end_date" ;;
  match fips with
  | Some f =>
      when (truthy (PStr f) && (String.length f =? 5)%nat)
        (setitem request_template "state" (PStr (str_take 2 f)) ;;
         setitem request_template "county" (PStr (str_drop 2 f)))
  | None => ret tt
  end ;;
  require request_template "email"
    "Must supply an email address to call 'request_daily_summary()'" ;;
  require request_template "key"
    "Must supply a key to call 'request_daily_summary()'" ;;
  require request_template "param"
    "Must supply param values to call 'request_daily_summary()'" ;;
  require request_template "begin_date"
    "Must supply a begin_date to call 'request_daily_summary()'" ;;
  require request_template "end_date"
    "Must supply an end_date to call 'request_daily_summary()'" ;;
  kw <- get_dict request_template ;;
  path <- lift_fmt (py_format endpoint_action kw) ;;
  let request_url := endpoint_url +:+ path in
  try_except
    (when (PrimFloat.ltb 0 API_THROTTLE_WAIT) (sleep API_THROTTLE_WAIT) ;;
     requests_get_json request_url hdrs)
    (fun e => print e ;; ret JNull).

(** ** The yearly aggregation cell *)

(** [for x in l: acc = body(acc, x)] *)
Fixpoint for_each {A B} (body : B -> A -> M B) (acc : B) (l : list A)
  : M B :=
  match l with
  | [] => ret acc
  | x :: l' => acc' <- body acc x ;; for_each body acc' l'
  end.

(** The class named in an error message; a number is reported as a
    float. *)
Definition type_name (j : json) : string :=
  match j with
  | JNull => "NoneType"
  | JBool _ => "bool"
  | JNum _ => "float"
  | JStr _ => "str"
  | JArr _ => "list"
  | JObj _ => "dict"
  end.

(** [j[k]] for a string [k] *)
Definition subscript (j : json) (k : string) : M json :=
  match j with
  | JObj items =>
      match assoc k items with
      | Some v => ret v
      | None => raise (KeyError k)
      end
  | JStr _ => raise (TypeError "string indices must be integers")
  | JArr _ =>
      raise (TypeError "list indices must be integers or slices, not str")
  | _ => raise (TypeError ("'" +:+ type_name j
                           +:+ "' object is not subscriptable"))
  end.

Fixpoint chars (s : string) : list json :=
  match s with
  | "" => []
  | String c s' => JStr (String c "") :: chars s'
  end.

(** [list(j.keys())] *)
Definition keys (j : json) : M (list string) :=
  match j with
  | JObj items => ret (remove_dups (map fst items))
  | _ => raise (AttributeError ("'" +:+ type_name j
                                +:+ "' object has no attribute 'keys'"))
  end.

(** The values [for day in j] runs through. *)
Definition iterate (j : json) : M (list json) :=
  match j with
  | JArr l => ret l
  | JObj items => ret (map JStr (remove_dups (map fst items)))
  | JStr s => ret (chars s)
  | _ => raise (TypeError ("'" +:+ type_name j
                           +:+ "' object is not iterable"))
  end.

Definition is_null (j : json) : bool :=
  match j with JNull => true | _ => false end.

Definition is_list (j : json) : bool :=
  match j with JArr _ => true | _ => false end.

Definition number_of (j : json) : option Q :=
  match j with
  | JNum q => Some q
  | JBool b => Some (if b then 1%Q else 0%Q)
  | _ => None
  end.

Definition Qsum (l : list Q) : Q := foldr Qplus 0%Q l.

(** The arithmetic mean, [sum / count]. *)
Definition mean (l : list Q) : Q :=
  Qred (Qsum l / inject_Z (Z.of_nat (length l)))%Q.

(** [np.mean(l)] for a non-empty list of numbers.  numpy returns the
    binary64 nearest to the quotient, which is kept exact here. *)
Definition np_mean (l : list json) : M Q :=
  if existsb is_list l then unmodelled
  else
    match mapM number_of l with
    | Some qs => ret (mean qs)
    | None => raise (TypeError "cannot perform reduce with flexible type")
    end.

(** The body of [for day in req["Data"]], source lines 702-704.  [data]
    is what the global name [data] is bound to when the cell runs:
    [None] when no cell has assigned it. *)
Definition collect_day (data : option json) (aqis : list json) (day : json)
  : M (list json) :=
  match data with
  | None => raise (NameError "data")
  | Some d =>
      ks <- keys d ;;
      if existsb (String.eqb "aqi") ks then
        v <- subscript day "aqi" ;;
        if negb (is_null v) then ret (aqis ++ [v])%list else ret aqis
      else ret aqis
  end.

(** Source lines 701-710: the value appended to [aqi] for one year,
    from the document [req] that the request returned. *)
Definition yearly_value (data : option json) (req : json)
  : M (option Q) :=
  data_field <- subscript req "Data" ;;
  days <- iterate data_field ;;
  aqis <- for_each (collect_day data) [] days ;;
  if (0 <? length aqis)%nat then m <- np_mean aqis ;; ret (Some m)
  else ret None.

(** One turn of [for i in range(1963, 2024)], source lines 692-711. *)
Definition year_body (data : option json) (request_data : loc)
  (acc : list (option Q) * list Z) (i : Z)
  : M (list (option Q) * list Z) :=
  req <- request_daily_summary None None None
           (Some (pretty i +:+ "0501")) (Some (pretty i +:+ "1031")) None
           None None (Some request_data) None ;;
  v <- yearly_value data req ;;
  ret ((acc.1 ++ [v])%list, (acc.2 ++ [i])%list).

(** The whole cell, source lines 679-711: the lists [aqi] and [year]. *)
Definition aggregation_cell (data : option json)
  : M (list (option Q) * list Z) :=
  request_data <- dict_copy AQS_REQUEST_TEMPLATE ;;
  setitem request_data "email" (PStr USERNAME) ;;
  setitem request_data "key" (PStr APIKEY) ;;
  setitem request_data "state" (PStr (str_take 2 CITY_LOCATIONS_fips)) ;;
  setitem request_data "county" (PStr (str_drop 2 CITY_LOCATIONS_fips)) ;;
  setitem request_data "param" (PStr AQI_PARAMS_PARTICULATES) ;;
  for_each (year_body data request_data) ([], []) (seqZ 1963 (2024 - 1963)).

End Client.

(** ** The table cell *)

Definition Qpositive (q : Q) : bool := (0 <? Qnum q)%Z.

(** Source lines 720-721: [df = pd.DataFrame({'aqi': aqi, 'year': year})]
    and [df = df[df.aqi > 0]].  A [None] in the column compares false,
    so its row goes. *)
Definition df_filter (aqi : list (option Q)) (year : list Z)
  : list (Q * Z) :=
  omap (fun row : option Q * Z =>
          match row.1 with
          | Some q => if Qpositive q then Some (q, row.2) else None
          | None => None
          end)
       (zip aqi year).

(** The two cells in sequence: the rows of the final table. *)
Definition final_table (float_repr : float -> string)
  (net : nat -> string -> headers -> response) (data : option json)
  : M (list (Q * Z)) :=
  cols <- aggregation_cell float_repr net data ;;
  ret (df_filter cols.1 cols.2).

(** ** What a call does, in direct style

    The definitions below restate the three stages of a request function
    (argument overlay, required-field checks, throttled request) as plain
    functions; [request_list_info_run] and [request_daily_summary_run]
    prove that the functions above compute exactly these. *)

(** [if arg: d[k] = arg] on the dictionary itself. *)
Definition put (arg : option string) (k : string) (d : gmap string pyval)
  : gmap string pyval :=
  match arg with
  | Some s => if truthy (PStr s) then <[k := PStr s]> d else d
  | None => d
  end.

(** [fips and len(fips)==5] *)
Definition fips_applies (fips : option string) : bool :=
  match fips with
  | Some f => truthy (PStr f) && (String.length f =? 5)%nat
  | None => false
  end.

Definition put_fips (fips : option string) (d : gmap string pyval)
  : gmap string pyval :=
  match fips with
  | Some f =>
      if truthy (PStr f) && (String.length f =? 5)%nat
      then <["county" := PStr (str_drop 2 f)]>
             (<["state" := PStr (str_take 2 f)]> d)
      else d
  | None => d
  end.

Definition merged_list (email_address key : option string)
  (d : gmap string pyval) : gmap string pyval :=
  put key "key" (put email_address "email" d).

Definition merged_daily
  (email_address key param begin_date end_date fips : option string)
  (d : gmap string pyval) : gmap string pyval :=
  put_fips fips
    (put end_date "end_date"
       (put begin_date "begin_date"
          (put param "param"
             (put key "key" (put email_address "email" d))))).

(** The same writes on the world. *)
Definition put_world (arg : option string) (l : loc) (k : string)
  (w : world) : world :=
  match arg with
  | Some s =>
      if truthy (PStr s)
      then World (<[l := <[k := PStr s]> (dict_at w l)]> (heap w)) (trace w)
      else w
  | None => w
  end.

Definition put_fips_world (fips : option string) (l : loc) (w : world)
  : world :=
  match fips with
  | Some f =>
      if truthy (PStr f) && (String.length f =? 5)%nat
      then
        let w1 := World (<[l := <["state" := PStr (str_take 2 f)]>
                                  (dict_at w l)]> (heap w)) (trace w) in
        World (<[l := <["county" := PStr (str_drop 2 f)]>
                        (dict_at w1 l)]> (heap w1)) (trace w1)
      else w
  | None => w
  end.

Definition list_world (email_address key : option string) (l : loc)
  (w : world) : world :=
  put_world key l "key" (put_world email_address l "email" w).

Definition daily_world
  (email_address key param begin_date end_date fips : option string)
  (l : loc) (w : world) : world :=
  put_fips_world fips l
    (put_world end_date l "end_date"
       (put_world begin_date l "begin_date"
          (put_world param l "param"
             (put_world key l "key"
                (put_world email_address l "email" w))))).

(** A field is unset when the template has no such key or holds a false
    value there. *)
Definition unset (d : gmap string pyval) (k : string) : bool :=
  match d !! k with
  | Some v => negb (truthy v)
  | None => true
  end.

(** What [if not d[k]: raise Exception(msg)] raises, if anything. *)
Definition check_field (d : gmap string pyval) (k msg : string)
  : option exn :=
  match d !! k with
  | Some v => if truthy v then None else Some (Exn "Exception" msg)
  | None => Some (KeyError k)
  end.

Fixpoint check_fields (d : gmap string pyval)
  (fields : list (string * string)) : option exn :=
  match fields with
  | [] => None
  | (k, msg) :: rest =>
      match check_field d k msg with
      | Some e => Some e
      | None => check_fields d rest
      end
  end.

Definition list_required : list (string * string) :=
  [("email", "Must supply an email address to call 'request_list_info()'");
   ("key", "Must supply a key to call 'request_list_info()'")].

Definition daily_required : list (string * string) :=
  [("email",
    "Must supply an email address to call 'request_daily_summary()'");
   ("key", "Must supply a key to call 'request_daily_summary()'");
   ("param", "Must supply param values to call 'request_daily_summary()'");
   ("begin_date",
    "Must supply a begin_date to call 'request_daily_summary()'");
   ("end_date", "Must supply an end_date to call 'request_daily_summary()'")].

(** The first required field that is unset. *)
Definition first_unset (d : gmap string pyval)
  (fields : list (string * string)) : option string :=
  List.find (unset d) (map fst fields).

(** The throttled request: one sleep, one GET, and a print when the GET
    or the decoding raised. *)
Definition send (net : nat -> string -> headers -> response)
  (url : string) (hdrs : headers) (w : world) : outcome json * world :=
  let t := (trace w ++ [EvSleep API_THROTTLE_WAIT; EvGet url hdrs])%list in
  match net (gets (trace w)) url hdrs with
  | GetRaises e => (Return JNull, World (heap w) (t ++ [EvPrint e])%list)
  | JsonRaises e => (Return JNull, World (heap w) (t ++ [EvPrint e])%list)
  | JsonIs doc => (Return doc, World (heap w) t)
  end.

(** Validation, URL composition and request, after the overlay. *)
Definition finish (float_repr : float -> string)
  (net : nat -> string -> headers -> response)
  (required : list (string * string))
  (endpoint_url endpoint_action : string) (l : loc) (hdrs : headers)
  (w : world) : outcome json * world :=
  match check_fields (dict_at w l) required with
  | Some e => (Raise e, w)
  | None =>
      match py_format float_repr endpoint_action (dict_at w l) with
      | FmtOk path => send net (endpoint_url +:+ path) hdrs w
      | FmtRaise e => (Raise e, w)
      | FmtUnmodelled => (Unmodelled, w)
      end
  end.

(** [doc["Header"][0]["status"]], when the document has that shape. *)
Definition header_status (doc : json) : option string :=
  match doc with
  | JObj items =>
      match assoc "Header" items with
      | Some (JArr (JObj h :: _)) =>
          match assoc "status" h with
          | Some (JStr s) => Some s
          | _ => None
          end
      | _ => None
      end
  | _ => None
  end.

(** What [yearly_value] should see in a record: [Some None] for a null
    ["aqi"], [Some (Some q)] for a number. *)
Definition record_aqi (day : json) : option (option Q) :=
  match day with
  | JObj items =>
      match assoc "aqi" items with
      | Some JNull => Some None
      | Some (JNum q) => Some (Some q)
      | _ => None
      end
  | _ => None
  end.

(** [d] is a dictionary with an ["aqi"] key. *)
Definition has_aqi_key (d : json) : bool :=
  match d with
  | JObj items => existsb (String.eqb "aqi") (remove_dups (map fst items))
  | _ => false
  end.

(** The non-null values among [vals], in order. *)
Definition non_null (vals : list (option Q)) : list Q := omap id vals.


(** ** Sample inputs *)

(** [repr] on the only float the notebook's templates hold, [0.0]. *)
Definition repr_of_zero (f : float) : string := "0.0".

Definition daily_record (aqi : json) : json :=
  JObj [("sample_duration", JStr "24 HOUR");
        ("observation_count", JNum 1);
        ("arithmetic_mean", JNum (15 # 2));
        ("aqi", aqi)].

Definition success_doc (records : list json) : json :=
  JObj [("Header", JArr [JObj [("status", JStr "Success")]]);
        ("Data", JArr records)].

Definition no_data_doc : json :=
  JObj [("Header",
         JArr [JObj [("status", JStr "No data matched your selection")]]);
        ("Data", JArr [])].

Definition failed_doc : json :=
  JObj [("Header", JArr [JObj [("status", JStr "Failed");
                               ("error", JArr [JStr "invalid key"])]]);
        ("Data", JArr [])].

Definition connection_error : exn :=
  Exn "ConnectionError" "Max retries exceeded".

Definition decode_error : exn :=
  Exn "JSONDecodeError" "Expecting value: line 1 column 1 (char 0)".

Definition net_down (n : nat) (url : string) (hdrs : headers) : response :=
  GetRaises connection_error.

Definition net_not_json (n : nat) (url : string) (hdrs : headers)
  : response := JsonRaises decode_error.

Definition net_failed (n : nat) (url : string) (hdrs : headers) : response :=
  JsonIs failed_doc.

(** The service as the aggregation cell might find it: nothing before
    1985 (the 23rd request), one day with AQI 0 in 1985, and three days
    with AQI 10, null and 20 in every later year. *)
Definition net_1985 (n : nat) (url : string) (hdrs : headers) : response :=
  if (n <? 22)%nat then JsonIs no_data_doc
  else if (n =? 22)%nat then JsonIs (success_doc [daily_record (JNum 0)])
  else JsonIs (success_doc [daily_record (JNum 10); daily_record JNull;
                            daily_record (JNum 20)]).

(** A dictionary with an ["aqi"] key, as a run in which [data] happened
    to be bound to a daily record would have it. *)
Definition data_bound : option json := Some (daily_record JNull).

(** The message of [e] mentions the field [k]. *)
Definition names (k : string) (e : exn) : bool :=
  str_contains k (exn_msg e).

(** Every message of a list of required fields mentions its field. *)
Definition well_named (fields : list (string * string)) : bool :=
  forallb (fun km : string * string =>
             str_contains km.1 km.2 && names km.1 (KeyError km.1)) fields.

(** A truthy argument [arg] of a call is what the dictionary [d] holds
    under [k]. *)
Definition persisted (arg : option string) (k : string)
  (d : gmap string pyval) : Prop :=
  forall s, arg = Some s -> s <> "" -> d !! k = Some (PStr s).

(** ** Plain format strings

    A format string that consists of literal text without braces and of
    replacement fields with plain names is a list of segments;
    [segments_of] reads the segments off such a string and [render] is
    the substitution that [str.format] performs on them. *)
Inductive segment :=
  | Lit (s : string)
  | Field (name : string).

Fixpoint unparse (segs : list segment) : string :=
  match segs with
  | [] => ""
  | Lit s :: rest => s +:+ unparse rest
  | Field n :: rest => "{" +:+ n +:+ "}" +:+ unparse rest
  end.

Fixpoint segments_go (field : option string) (lit : string) (s : string)
  : list segment :=
  match s with
  | "" => [Lit lit]
  | String c rest =>
      match field with
      | None =>
          if is_char c "{" then Lit lit :: segments_go (Some "") "" rest
          else segments_go None (lit +:+ String c "") rest
      | Some n =>
          if is_char c "}" then Field n :: segments_go None "" rest
          else segments_go (Some (n +:+ String c "")) "" rest
      end
  end.

Definition segments_of (fmt : string) : list segment :=
  segments_go None "" fmt.

Fixpoint brace_free (s : string) : bool :=
  match s with
  | "" => true
  | String c s' => negb (is_char c "{") && negb (is_char c "}") && brace_free s'
  end.

Fixpoint name_chars (s : string) : bool :=
  match s with
  | "" => true
  | String c s' =>
      negb (is_char c "}") && negb (field_special c) && name_chars s'
  end.

Definition plain_name (n : string) : bool :=
  negb (String.eqb n "") && negb (all_digits n) && name_chars n.

Definition plain (seg : segment) : bool :=
  match seg with
  | Lit s => brace_free s
  | Field n => plain_name n
  end.

(** [fmt] is the text of its segments, and these are plain. *)
Definition plain_format (fmt : string) : bool :=
  String.eqb (unparse (segments_of fmt)) fmt
  && forallb plain (segments_of fmt).

(** The names of the replacement fields, in order. *)
Definition fields (segs : list segment) : list string :=
  omap (fun seg => match seg with Field n => Some n | Lit _ => None end)
       segs.

(** Literal text is copied and each field is replaced by the string of
    the value under its name; the first name without a value raises. *)
Fixpoint render (float_repr : float -> string) (kw : gmap string pyval)
  (segs : list segment) : fmt_result :=
  match segs with
  | [] => FmtOk ""
  | Lit s :: rest => fmt_app s (render float_repr kw rest)
  | Field n :: rest =>
      match kw !! n with
      | Some v => fmt_app (py_str float_repr v) (render float_repr kw rest)
      | None => FmtRaise (KeyError n)
      end
  end.

(** The eight endpoint actions of the notebook. *)
Definition API_ACTIONS : list string :=
  [API_ACTION_SIGNUP; API_ACTION_LIST_CLASSES; API_ACTION_LIST_PARAMS;
   API_ACTION_LIST_SITES; API_ACTION_MONITORS_COUNTY;
   API_ACTION_MONITORS_BOX; API_ACTION_DAILY_SUMMARY_COUNTY;
   API_ACTION_DAILY_SUMMARY_BOX].

(** The template has no value for the field [n]. *)
Definition lacks (kw : gmap string pyval) (n : string) : bool :=
  match kw !! n with
  | Some _ => false
  | None => true
  end.

(** The URL of the default list request and of the default daily
    request, from the values of their fields. *)
Definition list_classes_url (email key : string) : string :=
  API_REQUEST_URL +:+ "/list/classes?email=" +:+ email +:+ "&key=" +:+ key.

Definition daily_county_url
  (email key param begin_date end_date state county : string) : string :=
  API_REQUEST_URL +:+ "/dailyData/byCounty?email=" +:+ email
  +:+ "&key=" +:+ key +:+ "&param=" +:+ param
  +:+ "&bdate=" +:+ begin_date +:+ "&edate=" +:+ end_date
  +:+ "&state=" +:+ state +:+ "&county=" +:+ county.


(** ** The list cells *)

(** [j[0]] *)
Definition index0 (j : json) : M json :=
  match j with
  | JArr [] => raise (IndexError "list index out of range")
  | JArr (x :: _) => ret x
  | JStr "" => raise (IndexError "string index out of range")
  | JStr (String c _) => ret (JStr (String c ""))
  | JObj _ => raise (Exn "KeyError" "0")
  | _ => raise (TypeError ("'" +:+ type_name j
                           +:+ "' object is not subscriptable"))
  end.

(** [j == s] for a string [s] *)
Definition is_str (j : json) (s : string) : bool :=
  match j with
  | JStr s' => String.eqb s' s
  | _ => false
  end.

(** Source lines 355-358, 428-431 and 580-583: the branch on the status
    of the response.  The cell prints [json.dumps(x, indent=4)] for one
    object [x], and that object is what is returned here. *)
Definition print_response (response : json) : M json :=
  header <- subscript response "Header" ;;
  first <- index0 header ;;
  status <- subscript first "status" ;;
  if is_str status "Success" then subscript response "Data"
  else ret response.

Section Cells.

Variable float_repr : float -> string.
Variable net : nat -> string -> headers -> response.

(** The cell that lists the parameter classes, source lines 349-358. *)
Definition list_classes_cell : M json :=
  request_data <- dict_copy AQS_REQUEST_TEMPLATE ;;
  setitem request_data "email" (PStr USERNAME) ;;
  setitem request_data "key" (PStr APIKEY) ;;
  response <- request_list_info float_repr net None None None None
                (Some request_data) None ;;
  print_response response.

(** The cell that lists the parameters of a class, source lines
    416-431. *)
Definition list_params_cell : M json :=
  request_data <- dict_copy AQS_REQUEST_TEMPLATE ;;
  setitem request_data "email" (PStr USERNAME) ;;
  setitem request_data "key" (PStr APIKEY) ;;
  setitem request_data "pclass" (PStr AQI_PARAM_CLASS) ;;
  response <- request_list_info float_repr net None None None
                (Some API_ACTION_LIST_PARAMS) (Some request_data) None ;;
  print_response response.

(** The cell that lists the sites of the county, source lines
    572-583. *)
Definition list_sites_cell : M json :=
  request_data <- dict_copy AQS_REQUEST_TEMPLATE ;;
  setitem request_data "email" (PStr USERNAME) ;;
  setitem request_data "key" (PStr APIKEY) ;;
  setitem request_data "state" (PStr (str_take 2 CITY_LOCATIONS_fips)) ;;
  setitem request_data "county" (PStr (str_drop 2 CITY_LOCATIONS_fips)) ;;
  response <- request_list_info float_repr net None None None
                (Some API_ACTION_LIST_SITES) (Some request_data) None ;;
  print_response response.

End Cells.

(** The worlds that [setitem] and [dict_copy] leave. *)
Definition set_world (l : loc) (k : string) (v : pyval) (w : world)
  : world :=
  World (<[l := <[k := v]> (dict_at w l)]> (heap w)) (trace w).

Definition copy_world (l : loc) (w : world) : world :=
  World (<[fresh (dom (heap w)) := dict_at w l]> (heap w)) (trace w).

Definition list_params_url (email key pclass : string) : string :=
  API_REQUEST_URL +:+ "/list/parametersByClass?email=" +:+ email
  +:+ "&key=" +:+ key +:+ "&pc=" +:+ pclass.

Definition list_sites_url (email key state county : string) : string :=
  API_REQUEST_URL +:+ "/list/sitesByCounty?email=" +:+ email
  +:+ "&key=" +:+ key +:+ "&state=" +:+ state +:+ "&county=" +:+ county.

(** What a list cell does when its request goes to [url]: with a decoded
    document it prints the data on "Success" and the whole document on
    any other status; with a failed request it subscripts [None].  The
    module-level template is not written. *)
Definition list_cell_behaves
  (net : nat -> string -> headers -> response) (cell : M json)
  (url : string) : Prop :=
  forall w,
    let r := cell w in
    match net (gets (trace w)) url None with
    | JsonIs doc =>
        trace r.2
        = (trace w ++ [EvSleep API_THROTTLE_WAIT; EvGet url None])%list /\
        (forall items data,
           doc = JObj items -> header_status doc = Some "Success" ->
           assoc "Data" items = Some data -> r.1 = Return data) /\
        (forall status,
           header_status doc = Some status -> status <> "Success" ->
           r.1 = Return doc)
    | GetRaises e | JsonRaises e =>
        trace r.2
        = (trace w ++ [EvSleep API_THROTTLE_WAIT; EvGet url None;
                       EvPrint e])%list /\
        r.1 = Raise (TypeError "'NoneType' object is not subscriptable")
    end /\
    (is_Some (heap w !! AQS_REQUEST_TEMPLATE) ->
     dict_at r.2 AQS_REQUEST_TEMPLATE = dict_at w AQS_REQUEST_TEMPLATE).

(** A template of a caller that holds the credentials and nothing
    else. *)
Definition world_bare : world :=
  World (<[1%nat := <["email" := PStr "a@b"]> (<["key" := PStr "k"]> ∅)]>
           (heap world0)) [].

(** A computation that leaves the world alone and whose outcome does
    not depend on it. *)
Definition stateless {A} (m : M A) : Prop :=
  exists o, forall w, m w = (o, w).

(** ** The aggregation loop, in direct style *)

(** The years of [range(1963, 2024)]. *)
Definition years : list Z := seqZ 1963 (2024 - 1963).

(** The URL the aggregation cell asks for in the year [y]. *)
Definition year_url (y : Z) : string :=
  daily_county_url USERNAME APIKEY AQI_PARAMS_PARTICULATES
    (pretty y +:+ "0501") (pretty y +:+ "1031") "46" "103".

(** What the cell has put into its copy of the template. *)
Definition cell_dict (d : gmap string pyval) : Prop :=
  d !! "email" = Some (PStr USERNAME) /\
  d !! "key" = Some (PStr APIKEY) /\
  d !! "param" = Some (PStr AQI_PARAMS_PARTICULATES) /\
  d !! "state" = Some (PStr "46") /\
  d !! "county" = Some (PStr "103").

(** The world after the request of the year [y] has written its dates
    into the template at [l]. *)
Definition year_world (l : loc) (y : Z) (w : world) : world :=
  daily_world None None None
    (Some (pretty y +:+ "0501")) (Some (pretty y +:+ "1031")) None l w.

(** What the client hands to the loop for a response. *)
Definition returned (resp : response) : json :=
  match resp with
  | JsonIs doc => doc
  | _ => JNull
  end.

(** What the client prints for a response. *)
Definition printed (resp : response) : list event :=
  match resp with
  | JsonIs _ => []
  | GetRaises e => [EvPrint e]
  | JsonRaises e => [EvPrint e]
  end.

(** The outcome of [yearly_value], which does not depend on the
    world. *)
Definition year_step (data : option json) (resp : response)
  : outcome (option Q) :=
  (yearly_value data (returned resp) world0).1.

(** The loop over the years as a function of the responses: the outcome
    and the events it adds, when [n] requests have been sent before. *)
Fixpoint loop_spec (net : nat -> string -> headers -> response)
  (data : option json) (n : nat) (acc : list (option Q) * list Z)
  (ys : list Z) : outcome (list (option Q) * list Z) * list event :=
  match ys with
  | [] => (Return acc, [])
  | y :: ys' =>
      let resp := net n (year_url y) None in
      let evs := ([EvSleep API_THROTTLE_WAIT; EvGet (year_url y) None]
                  ++ printed resp)%list in
      match year_step data resp with
      | Return v =>
          let r := loop_spec net data (S n)
                     ((acc.1 ++ [v])%list, (acc.2 ++ [y])%list) ys' in
          (r.1, (evs ++ r.2)%list)
      | Raise e => (Raise e, evs)
      | Unmodelled => (Unmodelled, evs)
      end
  end.

(** The events of the requests for the years [ys], none of them
    failing. *)
Definition year_requests (ys : list Z) : list event :=
  flat_map (fun y => [EvSleep API_THROTTLE_WAIT; EvGet (year_url y) None])
           ys.


(** A service without any data. *)
Definition net_no_data (n : nat) (url : string) (hdrs : headers)
  : response := JsonIs no_data_doc.


(** A service without data before 1985 whose connection then breaks. *)
Definition net_breaks_1985 (n : nat) (url : string) (hdrs : headers)
  : response :=
  if (n <? 22)%nat then JsonIs no_data_doc else GetRaises connection_error.

(** The year of the [i]-th turn of the loop. *)
Definition year_of (i : nat) : Z := 1963 + Z.of_nat i.

(** ** Facts about the stages *)

Lemma dict_at_insert_eq (h : gmap loc (gmap string pyval)) t l d :
  dict_at (World (<[l := d]> h) t) l = d.
Proof. unfold dict_at; simpl. apply lookup_total_insert_eq. Qed.

Lemma dict_at_insert_ne (h : gmap loc (gmap string pyval)) t t' l l' d :
  l ≠ l' -> dict_at (World (<[l := d]> h) t) l' = dict_at (World h t') l'.
Proof. intros Hne. unfold dict_at; simpl. by apply lookup_total_insert_ne. Qed.

Lemma dict_at_heap w w' l : heap w = heap w' -> dict_at w l = dict_at w' l.
Proof. unfold dict_at. by intros ->. Qed.

Lemma put_world_trace arg l k w : trace (put_world arg l k w) = trace w.
Proof.
  destruct arg as [s|]; unfold put_world; [destruct (truthy (PStr s))|]; done.
Qed.

Lemma put_world_dict arg l k w :
  dict_at (put_world arg l k w) l = put arg k (dict_at w l).
Proof.
  destruct arg as [s|]; unfold put_world, put; [|done].
  destruct (truthy (PStr s)); [|done]. apply dict_at_insert_eq.
Qed.

Lemma put_world_other arg l l' k w :
  l ≠ l' -> dict_at (put_world arg l k w) l' = dict_at w l'.
Proof.
  intros Hne. destruct arg as [s|]; unfold put_world; [|done].
  destruct (truthy (PStr s)); [|done]. destruct w as [h t].
  by apply dict_at_insert_ne.
Qed.

Lemma put_fips_world_trace fips l w :
  trace (put_fips_world fips l w) = trace w.
Proof.
  destruct fips as [f|]; unfold put_fips_world; [destruct (_ && _)|]; done.
Qed.

Lemma put_fips_world_dict fips l w :
  dict_at (put_fips_world fips l w) l = put_fips fips (dict_at w l).
Proof.
  destruct fips as [f|]; unfold put_fips_world, put_fips; [|done].
  destruct (_ && _); [|done].
  by rewrite !dict_at_insert_eq.
Qed.

Lemma put_fips_world_other fips l l' w :
  l ≠ l' -> dict_at (put_fips_world fips l w) l' = dict_at w l'.
Proof.
  intros Hne. destruct fips as [f|]; unfold put_fips_world; [|done].
  destruct (_ && _); [|done]. destruct w as [h t]; cbn [heap trace].
  rewrite (dict_at_insert_ne _ _ t) by done.
  by apply dict_at_insert_ne.
Qed.

Lemma list_world_trace e k l w : trace (list_world e k l w) = trace w.
Proof. unfold list_world. by rewrite !put_world_trace. Qed.

Lemma list_world_dict e k l w :
  dict_at (list_world e k l w) l = merged_list e k (dict_at w l).
Proof. unfold list_world, merged_list. by rewrite !put_world_dict. Qed.

Lemma list_world_other e k l l' w :
  l ≠ l' -> dict_at (list_world e k l w) l' = dict_at w l'.
Proof. intros. unfold list_world. by rewrite !put_world_other. Qed.

Lemma daily_world_trace e k p b en f l w :
  trace (daily_world e k p b en f l w) = trace w.
Proof.
  unfold daily_world. by rewrite put_fips_world_trace, !put_world_trace.
Qed.

Lemma daily_world_dict e k p b en f l w :
  dict_at (daily_world e k p b en f l w) l
  = merged_daily e k p b en f (dict_at w l).
Proof.
  unfold daily_world, merged_daily.
  by rewrite put_fips_world_dict, !put_world_dict.
Qed.

Lemma daily_world_other e k p b en f l l' w :
  l ≠ l' -> dict_at (daily_world e k p b en f l w) l' = dict_at w l'.
Proof.
  intros. unfold daily_world.
  by rewrite put_fips_world_other, !put_world_other.
Qed.

Lemma throttle_positive : PrimFloat.ltb 0 API_THROTTLE_WAIT = true.
Proof. reflexivity. Qed.

Lemma set_if_given_run arg l k w :
  set_if_given arg l k w = (Return tt, put_world arg l k w).
Proof.
  destruct arg as [s|]; unfold set_if_given, put_world; [|done].
  by destruct (truthy (PStr s)).
Qed.

Lemma require_run l k msg w :
  require l k msg w =
  match check_field (dict_at w l) k msg with
  | Some e => (Raise e, w)
  | None => (Return tt, w)
  end.
Proof.
  unfold require, bind, getitem, check_field.
  destruct (dict_at w l !! k) as [v|]; [|done].
  by destruct (truthy v).
Qed.

Lemma bind_run {A B} (m : M A) (k : A -> M B) w a w' :
  m w = (Return a, w') -> bind m k w = k a w'.
Proof. unfold bind. by intros ->. Qed.

Section Facts.

Variable float_repr : float -> string.
Variable net : nat -> string -> headers -> response.

(** The [try]/[except] block of both functions. *)
Lemma try_block_run url hdrs w :
  try_except
    (when (PrimFloat.ltb 0 API_THROTTLE_WAIT) (sleep API_THROTTLE_WAIT) ;;
     requests_get_json net url hdrs)
    (fun e => print e ;; ret JNull) w
  = send net url hdrs w.
Proof.
  rewrite throttle_positive. unfold try_except, bind, when, sleep, emit,
    requests_get_json, send, print, emit, ret, gets; simpl.
  rewrite List.filter_app; simpl. rewrite app_nil_r.
  rewrite <- !app_assoc; simpl.
  by destruct (net _ url hdrs).
Qed.

Lemma request_list_info_run e k u a t hdrs w :
  request_list_info float_repr net e k u a t hdrs w
  = finish float_repr net list_required
      (default API_REQUEST_URL u) (default API_ACTION_LIST_CLASSES a)
      (default AQS_REQUEST_TEMPLATE t) hdrs
      (list_world e k (default AQS_REQUEST_TEMPLATE t) w).
Proof.
  unfold request_list_info, finish, list_world.
  set (l := default AQS_REQUEST_TEMPLATE t).
  rewrite (bind_run _ _ _ _ _ (set_if_given_run _ _ _ _)).
  rewrite (bind_run _ _ _ _ _ (set_if_given_run _ _ _ _)).
  set (w1 := put_world k l "key" _).
  simpl check_fields.
  unfold bind at 1. rewrite require_run.
  destruct (check_field (dict_at w1 l) "email" _); [done|].
  unfold bind at 1. rewrite require_run.
  destruct (check_field (dict_at w1 l) "key" _); [done|].
  unfold bind at 1, get_dict.
  unfold bind at 1.
  destruct (py_format _ _ _); simpl; [|done|done].
  apply try_block_run.
Qed.

Lemma fips_block_run fips l w :
  match fips with
  | Some f =>
      when (truthy (PStr f) && (String.length f =? 5)%nat)
        (setitem l "state" (PStr (str_take 2 f)) ;;
         setitem l "county" (PStr (str_drop 2 f)))
  | None => ret tt
  end w = (Return tt, put_fips_world fips l w).
Proof.
  destruct fips as [f|]; unfold put_fips_world; [|done].
  by destruct (_ && _).
Qed.

Lemma request_daily_summary_run e k p b en f u a t hdrs w :
  request_daily_summary float_repr net e k p b en f u a t hdrs w
  = finish float_repr net daily_required
      (default API_REQUEST_URL u)
      (default API_ACTION_DAILY_SUMMARY_COUNTY a)
      (default AQS_REQUEST_TEMPLATE t) hdrs
      (daily_world e k p b en f (default AQS_REQUEST_TEMPLATE t) w).
Proof.
  unfold request_daily_summary, finish, daily_world.
  set (l := default AQS_REQUEST_TEMPLATE t).
  do 5 rewrite (bind_run _ _ _ _ _ (set_if_given_run _ _ _ _)).
  rewrite (bind_run _ _ _ _ _ (fips_block_run _ _ _)).
  set (w1 := put_fips_world f l _).
  simpl check_fields.
  do 5 (unfold bind at 1; rewrite require_run;
        match goal with
        | |- context [check_field (dict_at w1 l) ?k ?m] =>
            destruct (check_field (dict_at w1 l) k m); [done|]
        end).
  unfold bind at 1, get_dict.
  unfold bind at 1.
  destruct (py_format _ _ _); simpl; [|done|done].
  apply try_block_run.
Qed.

(** No stage after the overlay writes into a dictionary. *)
Lemma finish_heap required u a l hdrs w :
  heap (finish float_repr net required u a l hdrs w).2 = heap w.
Proof.
  unfold finish. destruct (check_fields _ _); [done|].
  destruct (py_format _ _ _); [|done|done].
  unfold send. by destruct (net _ _ _).
Qed.

(** A failed check leaves the trace alone. *)
Lemma finish_raises required u a l hdrs w e :
  check_fields (dict_at w l) required = Some e ->
  finish float_repr net required u a l hdrs w = (Raise e, w).
Proof. unfold finish. by intros ->. Qed.

Lemma finish_sends required u a l hdrs w path :
  check_fields (dict_at w l) required = None ->
  py_format float_repr a (dict_at w l) = FmtOk path ->
  finish float_repr net required u a l hdrs w
  = send net (u +:+ path) hdrs w.
Proof. unfold finish. by intros -> ->. Qed.

End Facts.

(** ** Required fields *)

Lemma check_fields_names d fields f :
  well_named fields = true ->
  first_unset d fields = Some f ->
  exists ex, check_fields d fields = Some ex /\ names f ex = true.
Proof.
  unfold first_unset.
  induction fields as [|[k msg] rest IH]; simpl; [done|].
  intros [[Hmsg Hkey]%andb_prop Hrest]%andb_prop.
  unfold unset at 1, check_field.
  destruct (d !! k) as [v|]; simpl.
  - destruct (truthy v); simpl; [by apply IH|].
    intros [= <-]. by eexists.
  - intros [= <-]. by eexists.
Qed.

Lemma first_unset_some d fields k :
  In k (map fst fields) -> unset d k = true ->
  exists f, first_unset d fields = Some f.
Proof.
  intros Hin Hk. unfold first_unset.
  destruct (List.find _ _) as [f|] eqn:Hfind; [by eexists|].
  by rewrite (List.find_none _ _ Hfind k Hin) in Hk.
Qed.

Lemma first_unset_unset d fields f :
  first_unset d fields = Some f ->
  In f (map fst fields) /\ unset d f = true.
Proof. apply List.find_some. Qed.

Lemma check_fields_none d fields :
  first_unset d fields = None -> check_fields d fields = None.
Proof.
  unfold first_unset.
  induction fields as [|[k msg] rest IH]; simpl; [done|].
  unfold unset at 1, check_field.
  destruct (d !! k) as [v|]; simpl; [|done].
  by destruct (truthy v); simpl.
Qed.

Lemma fips_split_lengths fips :
  String.length fips = 5%nat ->
  String.length (str_take 2 fips) = 2%nat /\
  String.length (str_drop 2 fips) = 3%nat /\
  str_take 2 fips +:+ str_drop 2 fips = fips.
Proof.
  destruct fips as [|c1 [|c2 [|c3 [|c4 [|c5 [|c6 rest]]]]]]; by simpl.
Qed.

Lemma fips_applies_length fips :
  String.length fips = 5%nat -> fips_applies (Some fips) = true.
Proof.
  intros H. unfold fips_applies. rewrite H. by destruct fips.
Qed.

Lemma list_required_named : well_named list_required = true.
Proof. reflexivity. Qed.

Lemma daily_required_named : well_named daily_required = true.
Proof. reflexivity. Qed.

Lemma truthy_str s : truthy (PStr s) = true <-> s <> "".
Proof.
  simpl. destruct (String.eqb_spec s ""); simpl; split; congruence.
Qed.

Lemma fips_applies_other_length fips :
  String.length fips <> 5%nat -> fips_applies (Some fips) = false.
Proof.
  intros H. unfold fips_applies.
  apply Nat.eqb_neq in H. rewrite H. apply andb_false_r.
Qed.

Lemma put_lookup_keep arg k d (field : string) :
  (field = k -> arg_truthy arg = false) ->
  put arg k d !! field = d !! field.
Proof.
  intros H. destruct arg as [s|]; unfold put; [|done].
  destruct (truthy (PStr s)) eqn:Hs; [|done].
  apply lookup_insert_ne. intros <-.
  specialize (H eq_refl). simpl in H, Hs. congruence.
Qed.

Lemma put_lookup_set s k d :
  s <> "" -> put (Some s) k d !! k = Some (PStr s).
Proof.
  intros Hs%truthy_str. unfold put. rewrite Hs. apply lookup_insert_eq.
Qed.

Lemma put_fips_lookup_keep fips d (field : string) :
  (field = "state" \/ field = "county" -> fips_applies fips = false) ->
  put_fips fips d !! field = d !! field.
Proof.
  intros H. destruct fips as [f|]; unfold put_fips; [|done].
  change (truthy (PStr f) && (String.length f =? 5)%nat)
    with (fips_applies (Some f)).
  destruct (fips_applies (Some f)) eqn:Hf; [|done].
  rewrite !lookup_insert_ne; [done| |]; intros <-; by (discriminate H; auto).
Qed.

Lemma put_fips_world_skip fips l w :
  fips_applies fips = false -> put_fips_world fips l w = w.
Proof.
  destruct fips as [f|]; unfold put_fips_world; [|done].
  change (truthy (PStr f) && (String.length f =? 5)%nat)
    with (fips_applies (Some f)).
  by intros ->.
Qed.

(** Writing again what is already there changes nothing. *)
Lemma store_same w l k v :
  is_Some (heap w !! l) -> dict_at w l !! k = Some v ->
  World (<[l := <[k := v]> (dict_at w l)]> (heap w)) (trace w) = w.
Proof.
  destruct w as [h t]. intros [d Hd] Hk. unfold dict_at in *; simpl in *.
  rewrite (lookup_total_correct _ _ _ Hd) in *.
  by rewrite (insert_id d), (insert_id h).
Qed.

Lemma put_world_same arg l k w :
  (arg_truthy arg = true -> is_Some (heap w !! l)) ->
  persisted arg k (dict_at w l) ->
  put_world arg l k w = w.
Proof.
  intros Hl Hk. destruct arg as [s|]; unfold put_world; [|done].
  destruct (truthy (PStr s)) eqn:Hs; [|done].
  specialize (Hl Hs). apply truthy_str in Hs.
  apply store_same; [done|]. by apply Hk.
Qed.

Lemma put_fips_world_same fips l w :
  (fips_applies fips = true -> is_Some (heap w !! l)) ->
  (forall f, fips = Some f -> fips_applies fips = true ->
     dict_at w l !! "state" = Some (PStr (str_take 2 f)) /\
     dict_at w l !! "county" = Some (PStr (str_drop 2 f))) ->
  put_fips_world fips l w = w.
Proof.
  intros Hl Hk. destruct fips as [f|]; unfold put_fips_world; [|done].
  change (truthy (PStr f) && (String.length f =? 5)%nat)
    with (fips_applies (Some f)).
  destruct (fips_applies (Some f)) eqn:Hf; [|done].
  specialize (Hl eq_refl).
  destruct (Hk f eq_refl eq_refl) as [Hst Hco]. cbv zeta.
  rewrite (store_same w l "state") by done.
  by apply store_same.
Qed.

Lemma put_world_allocated arg l k w :
  is_Some (heap w !! l) \/ arg_truthy arg = true ->
  is_Some (heap (put_world arg l k w) !! l).
Proof.
  intros H. destruct arg as [s|]; unfold put_world.
  - simpl in H. destruct (truthy (PStr s)) eqn:Hs; simpl.
    + rewrite lookup_insert_eq. by eexists.
    + simpl in Hs. rewrite Hs in H. by destruct H.
  - by destruct H.
Qed.

Lemma put_fips_world_allocated fips l w :
  is_Some (heap w !! l) \/ fips_applies fips = true ->
  is_Some (heap (put_fips_world fips l w) !! l).
Proof.
  intros H. destruct fips as [f|]; unfold put_fips_world.
  - change (truthy (PStr f) && (String.length f =? 5)%nat)
      with (fips_applies (Some f)).
    destruct (fips_applies (Some f)) eqn:Hf; simpl.
    + rewrite lookup_insert_eq. by eexists.
    + by destruct H.
  - by destruct H.
Qed.

Lemma put_lookup_other arg k d (field : string) :
  field <> k -> put arg k d !! field = d !! field.
Proof. intros H. by apply put_lookup_keep. Qed.

Lemma put_fips_set f d :
  fips_applies (Some f) = true ->
  put_fips (Some f) d !! "state" = Some (PStr (str_take 2 f)) /\
  put_fips (Some f) d !! "county" = Some (PStr (str_drop 2 f)).
Proof.
  unfold put_fips.
  change (truthy (PStr f) && (String.length f =? 5)%nat)
    with (fips_applies (Some f)).
  intros ->. rewrite lookup_insert_ne by done.
  by rewrite !lookup_insert_eq.
Qed.

Lemma merged_list_persisted e k d :
  persisted e "email" (merged_list e k d) /\
  persisted k "key" (merged_list e k d).
Proof.
  unfold merged_list. split; intros s -> Hs.
  - rewrite put_lookup_other by done. by apply put_lookup_set.
  - by apply put_lookup_set.
Qed.

Lemma merged_daily_persisted e k p b en f d :
  let d' := merged_daily e k p b en f d in
  persisted e "email" d' /\ persisted k "key" d' /\
  persisted p "param" d' /\ persisted b "begin_date" d' /\
  persisted en "end_date" d'.
Proof.
  unfold merged_daily. repeat split; intros s -> Hs;
    rewrite put_fips_lookup_keep by (by intros [|]);
    rewrite ?put_lookup_other by done; by apply put_lookup_set.
Qed.

Lemma list_world_allocated e k l w :
  arg_truthy e = true \/ arg_truthy k = true ->
  is_Some (heap (list_world e k l w) !! l).
Proof.
  intros H. unfold list_world.
  apply put_world_allocated.
  destruct (arg_truthy k); [by right|left].
  apply put_world_allocated. right. by destruct H.
Qed.

Lemma daily_world_allocated e k p b en f l w :
  arg_truthy e = true \/ arg_truthy k = true \/ arg_truthy p = true \/
  arg_truthy b = true \/ arg_truthy en = true \/ fips_applies f = true ->
  is_Some (heap (daily_world e k p b en f l w) !! l).
Proof.
  intros H. unfold daily_world.
  apply put_fips_world_allocated.
  destruct (fips_applies f); [by right|left].
  apply put_world_allocated.
  destruct (arg_truthy en); [by right|left].
  apply put_world_allocated.
  destruct (arg_truthy b); [by right|left].
  apply put_world_allocated.
  destruct (arg_truthy p); [by right|left].
  apply put_world_allocated.
  destruct (arg_truthy k); [by right|left].
  apply put_world_allocated. right.
  by destruct H as [|[|[|[|[|]]]]].
Qed.

Section Claims.

Variable float_repr : float -> string.
Variable net : nat -> string -> headers -> response.

(** C2: when the merged template leaves a required field unset (email or
    key for [request_list_info]; email, key, param, begin_date or
    end_date for [request_daily_summary]), the call raises an exception
    whose message names the first such field, and the trace is what it
    was: no sleep, no request. *)
Theorem missing_field_raises_before_io :
  (forall e k u a t hdrs w,
     let d := merged_list e k (dict_at w (default AQS_REQUEST_TEMPLATE t)) in
     let r := request_list_info float_repr net e k u a t hdrs w in
     unset d "email" = true \/ unset d "key" = true ->
     exists f ex,
       first_unset d list_required = Some f /\ unset d f = true /\
       r.1 = Raise ex /\ names f ex = true /\ trace r.2 = trace w)
  /\
  (forall e k p b en fips u a t hdrs w,
     let d := merged_daily e k p b en fips
                (dict_at w (default AQS_REQUEST_TEMPLATE t)) in
     let r := request_daily_summary float_repr net
                e k p b en fips u a t hdrs w in
     unset d "email" = true \/ unset d "key" = true \/
     unset d "param" = true \/ unset d "begin_date" = true \/
     unset d "end_date" = true ->
     exists f ex,
       first_unset d daily_required = Some f /\ unset d f = true /\
       r.1 = Raise ex /\ names f ex = true /\ trace r.2 = trace w).
Proof.
  split.
  - intros e k u a t hdrs w d r Hun.
    assert (exists f, first_unset d list_required = Some f) as [f Hf].
    { destruct Hun as [H|H];
        eapply first_unset_some; try exact H; simpl; tauto. }
    destruct (check_fields_names d _ f list_required_named Hf)
      as (ex & Hex & Hnames).
    exists f, ex. subst r. rewrite request_list_info_run.
    rewrite (finish_raises _ _ _ _ _ _ _ _ ex).
    + simpl. rewrite list_world_trace.
      by destruct (first_unset_unset _ _ _ Hf).
    + by rewrite list_world_dict.
  - intros e k p b en fips u a t hdrs w d r Hun.
    assert (exists f, first_unset d daily_required = Some f) as [f Hf].
    { destruct Hun as [H|[H|[H|[H|H]]]];
        eapply first_unset_some; try exact H; simpl; tauto. }
    destruct (check_fields_names d _ f daily_required_named Hf)
      as (ex & Hex & Hnames).
    exists f, ex. subst r. rewrite request_daily_summary_run.
    rewrite (finish_raises _ _ _ _ _ _ _ _ ex).
    + simpl. rewrite daily_world_trace.
      by destruct (first_unset_unset _ _ _ Hf).
    + by rewrite daily_world_dict.
Qed.

(** C4: a FIPS string of exactly five characters leaves its first two
    characters in the template's state field and the remaining three in
    its county field, whatever else the call does. *)
Theorem fips_of_length_five_is_split :
  forall e k p b en fips u a t hdrs w,
    String.length fips = 5%nat ->
    let r := request_daily_summary float_repr net
               e k p b en (Some fips) u a t hdrs w in
    let d := dict_at r.2 (default AQS_REQUEST_TEMPLATE t) in
    d !! "state" = Some (PStr (str_take 2 fips)) /\
    d !! "county" = Some (PStr (str_drop 2 fips)) /\
    String.length (str_take 2 fips) = 2%nat /\
    String.length (str_drop 2 fips) = 3%nat /\
    str_take 2 fips +:+ str_drop 2 fips = fips.
Proof.
  intros e k p b en fips u a t hdrs w Hlen r d.
  assert (d = merged_daily e k p b en (Some fips)
                (dict_at w (default AQS_REQUEST_TEMPLATE t))) as ->.
  { subst d r. rewrite request_daily_summary_run.
    rewrite (dict_at_heap _ _ _ (finish_heap _ _ _ _ _ _ _ _)).
    apply daily_world_dict. }
  unfold merged_daily, put_fips.
  change (truthy (PStr fips) && (String.length fips =? 5)%nat)
    with (fips_applies (Some fips)).
  rewrite (fips_applies_length _ Hlen).
  rewrite lookup_insert_ne by done.
  rewrite !lookup_insert_eq.
  split; [done|]. split; [done|]. by apply fips_split_lengths.
Qed.

(** C5: when every required field is set and the URL is composed, a GET
    or a JSON decoding that raises makes the call return [None]; the
    exception is printed, and the call has slept once and sent one
    request, with nothing after the print. *)
Theorem transport_failure_is_printed_and_none :
  (forall e k u a t hdrs w path ex,
     let d := merged_list e k (dict_at w (default AQS_REQUEST_TEMPLATE t)) in
     let url := default API_REQUEST_URL u +:+ path in
     let r := request_list_info float_repr net e k u a t hdrs w in
     first_unset d list_required = None ->
     py_format float_repr (default API_ACTION_LIST_CLASSES a) d
       = FmtOk path ->
     net (gets (trace w)) url hdrs = GetRaises ex \/
     net (gets (trace w)) url hdrs = JsonRaises ex ->
     r.1 = Return JNull /\
     trace r.2 = (trace w ++ [EvSleep API_THROTTLE_WAIT; EvGet url hdrs;
                              EvPrint ex])%list)
  /\
  (forall e k p b en fips u a t hdrs w path ex,
     let d := merged_daily e k p b en fips
                (dict_at w (default AQS_REQUEST_TEMPLATE t)) in
     let url := default API_REQUEST_URL u +:+ path in
     let r := request_daily_summary float_repr net
                e k p b en fips u a t hdrs w in
     first_unset d daily_required = None ->
     py_format float_repr (default API_ACTION_DAILY_SUMMARY_COUNTY a) d
       = FmtOk path ->
     net (gets (trace w)) url hdrs = GetRaises ex \/
     net (gets (trace w)) url hdrs = JsonRaises ex ->
     r.1 = Return JNull /\
     trace r.2 = (trace w ++ [EvSleep API_THROTTLE_WAIT; EvGet url hdrs;
                              EvPrint ex])%list).
Proof.
  split.
  - intros e k u a t hdrs w path ex d url r Hset Hfmt Hnet. subst r.
    rewrite request_list_info_run.
    rewrite (finish_sends _ _ _ _ _ _ _ _ path);
      rewrite ?list_world_dict; auto using check_fields_none.
    unfold send. rewrite list_world_trace. fold url.
    destruct Hnet as [-> | ->]; simpl;
      by rewrite <- app_assoc.
  - intros e k p b en fips u a t hdrs w path ex d url r Hset Hfmt Hnet.
    subst r. rewrite request_daily_summary_run.
    rewrite (finish_sends _ _ _ _ _ _ _ _ path);
      rewrite ?daily_world_dict; auto using check_fields_none.
    unfold send. rewrite daily_world_trace. fold url.
    destruct Hnet as [-> | ->]; simpl;
      by rewrite <- app_assoc.
Qed.

(** C6: a decoded document whose [Header[0].status] is something other
    than "Success" is returned as it is: the call does not raise, what it
    returns is that document and not [None], and nothing is printed. *)
Theorem non_success_document_is_returned :
  (forall e k u a t hdrs w path doc status,
     let d := merged_list e k (dict_at w (default AQS_REQUEST_TEMPLATE t)) in
     let url := default API_REQUEST_URL u +:+ path in
     let r := request_list_info float_repr net e k u a t hdrs w in
     first_unset d list_required = None ->
     py_format float_repr (default API_ACTION_LIST_CLASSES a) d
       = FmtOk path ->
     net (gets (trace w)) url hdrs = JsonIs doc ->
     header_status doc = Some status -> status <> "Success" ->
     r.1 = Return doc /\ doc <> JNull /\
     trace r.2 = (trace w ++ [EvSleep API_THROTTLE_WAIT;
                              EvGet url hdrs])%list)
  /\
  (forall e k p b en fips u a t hdrs w path doc status,
     let d := merged_daily e k p b en fips
                (dict_at w (default AQS_REQUEST_TEMPLATE t)) in
     let url := default API_REQUEST_URL u +:+ path in
     let r := request_daily_summary float_repr net
                e k p b en fips u a t hdrs w in
     first_unset d daily_required = None ->
     py_format float_repr (default API_ACTION_DAILY_SUMMARY_COUNTY a) d
       = FmtOk path ->
     net (gets (trace w)) url hdrs = JsonIs doc ->
     header_status doc = Some status -> status <> "Success" ->
     r.1 = Return doc /\ doc <> JNull /\
     trace r.2 = (trace w ++ [EvSleep API_THROTTLE_WAIT;
                              EvGet url hdrs])%list).
Proof.
  split.
  - intros e k u a t hdrs w path doc status d url r Hset Hfmt Hnet Hst _.
    subst r. rewrite request_list_info_run.
    rewrite (finish_sends _ _ _ _ _ _ _ _ path);
      rewrite ?list_world_dict; auto using check_fields_none.
    unfold send. rewrite list_world_trace. fold url. rewrite Hnet.
    repeat split. by intros ->.
  - intros e k p b en fips u a t hdrs w path doc status d url r
      Hset Hfmt Hnet Hst _.
    subst r. rewrite request_daily_summary_run.
    rewrite (finish_sends _ _ _ _ _ _ _ _ path);
      rewrite ?daily_world_dict; auto using check_fields_none.
    unfold send. rewrite daily_world_trace. fold url. rewrite Hnet.
    repeat split. by intros ->.
Qed.

(** C7: a field of the template for which the call received no truthy
    argument holds after the call what it held before (state and county
    being written only by a FIPS string of five characters), and no
    other dictionary is touched. *)
Theorem unspecified_fields_are_kept :
  (forall e k u a t hdrs w (field : string),
     let l := default AQS_REQUEST_TEMPLATE t in
     let r := request_list_info float_repr net e k u a t hdrs w in
     (field = "email" -> arg_truthy e = false) ->
     (field = "key" -> arg_truthy k = false) ->
     dict_at r.2 l !! field = dict_at w l !! field /\
     forall l', l <> l' -> dict_at r.2 l' = dict_at w l')
  /\
  (forall e k p b en fips u a t hdrs w (field : string),
     let l := default AQS_REQUEST_TEMPLATE t in
     let r := request_daily_summary float_repr net
                e k p b en fips u a t hdrs w in
     (field = "email" -> arg_truthy e = false) ->
     (field = "key" -> arg_truthy k = false) ->
     (field = "param" -> arg_truthy p = false) ->
     (field = "begin_date" -> arg_truthy b = false) ->
     (field = "end_date" -> arg_truthy en = false) ->
     (field = "state" \/ field = "county" -> fips_applies fips = false) ->
     dict_at r.2 l !! field = dict_at w l !! field /\
     forall l', l <> l' -> dict_at r.2 l' = dict_at w l').
Proof.
  split.
  - intros e k u a t hdrs w field l r He Hk. subst r.
    rewrite request_list_info_run. split.
    + rewrite (dict_at_heap _ _ _ (finish_heap _ _ _ _ _ _ _ _)).
      rewrite list_world_dict. unfold merged_list.
      by rewrite !put_lookup_keep.
    + intros l' Hne.
      rewrite (dict_at_heap _ _ _ (finish_heap _ _ _ _ _ _ _ _)).
      by apply list_world_other.
  - intros e k p b en fips u a t hdrs w field l r He Hk Hp Hb Hen Hf.
    subst r. rewrite request_daily_summary_run. split.
    + rewrite (dict_at_heap _ _ _ (finish_heap _ _ _ _ _ _ _ _)).
      rewrite daily_world_dict. unfold merged_daily.
      by rewrite put_fips_lookup_keep, !put_lookup_keep.
    + intros l' Hne.
      rewrite (dict_at_heap _ _ _ (finish_heap _ _ _ _ _ _ _ _)).
      by apply daily_world_other.
Qed.

(** C9: a FIPS string whose length is not five is ignored: the call does
    exactly what it does without the argument, and the state and county
    fields keep their values. *)
Theorem fips_of_other_length_is_ignored :
  forall e k p b en fips u a t hdrs w,
    String.length fips <> 5%nat ->
    let l := default AQS_REQUEST_TEMPLATE t in
    let r := request_daily_summary float_repr net
               e k p b en (Some fips) u a t hdrs w in
    r = request_daily_summary float_repr net e k p b en None u a t hdrs w /\
    dict_at r.2 l !! "state" = dict_at w l !! "state" /\
    dict_at r.2 l !! "county" = dict_at w l !! "county".
Proof.
  intros e k p b en fips u a t hdrs w Hlen%fips_applies_other_length l r.
  subst r. rewrite !request_daily_summary_run. split.
  - unfold daily_world. by rewrite put_fips_world_skip.
  - rewrite (dict_at_heap _ _ _ (finish_heap _ _ _ _ _ _ _ _)).
    rewrite daily_world_dict. unfold merged_daily.
    rewrite !put_fips_lookup_keep by done.
    by rewrite !put_lookup_keep.
Qed.

(** C10: a call that omits [request_template] writes into the one
    module-level object: every truthy argument is what that object holds
    afterwards, and a later call that omits the template too finds it
    there, since passing the same arguments again changes nothing. *)
Theorem default_template_is_shared :
  (forall e k u a hdrs w,
     let w1 := (request_list_info float_repr net e k u a None hdrs w).2 in
     let d1 := dict_at w1 AQS_REQUEST_TEMPLATE in
     persisted e "email" d1 /\ persisted k "key" d1 /\
     (forall u' a' hdrs',
        request_list_info float_repr net None None u' a' None hdrs' w1
        = request_list_info float_repr net e k u' a' None hdrs' w1) /\
     (forall p' b' en' fips' u' a' hdrs',
        request_daily_summary float_repr net
          None None p' b' en' fips' u' a' None hdrs' w1
        = request_daily_summary float_repr net
            e k p' b' en' fips' u' a' None hdrs' w1))
  /\
  (forall e k p b en fips u a hdrs w,
     let w1 := (request_daily_summary float_repr net
                  e k p b en fips u a None hdrs w).2 in
     let d1 := dict_at w1 AQS_REQUEST_TEMPLATE in
     persisted e "email" d1 /\ persisted k "key" d1 /\
     persisted p "param" d1 /\ persisted b "begin_date" d1 /\
     persisted en "end_date" d1 /\
     (forall f, fips = Some f -> String.length f = 5%nat ->
        d1 !! "state" = Some (PStr (str_take 2 f)) /\
        d1 !! "county" = Some (PStr (str_drop 2 f))) /\
     (forall u' a' hdrs',
        request_daily_summary float_repr net
          None None None None None None u' a' None hdrs' w1
        = request_daily_summary float_repr net
            e k p b en fips u' a' None hdrs' w1) /\
     (forall u' a' hdrs',
        request_list_info float_repr net None None u' a' None hdrs' w1
        = request_list_info float_repr net e k u' a' None hdrs' w1)).
Proof.
  split.
  - intros e k u a hdrs w w1 d1.
    assert (heap w1 = heap (list_world e k AQS_REQUEST_TEMPLATE w)) as Hheap.
    { subst w1. rewrite request_list_info_run. apply finish_heap. }
    assert (d1 = merged_list e k (dict_at w AQS_REQUEST_TEMPLATE)) as Hd1.
    { subst d1. rewrite (dict_at_heap _ _ _ Hheap). apply list_world_dict. }
    destruct (merged_list_persisted e k (dict_at w AQS_REQUEST_TEMPLATE))
      as [He Hk]. rewrite <- Hd1 in He, Hk.
    assert (put_world e AQS_REQUEST_TEMPLATE "email" w1 = w1) as Ee.
    { apply put_world_same; [|done]. intros Ht. rewrite Hheap.
      apply list_world_allocated. by left. }
    assert (put_world k AQS_REQUEST_TEMPLATE "key" w1 = w1) as Ek.
    { apply put_world_same; [|done]. intros Ht. rewrite Hheap.
      apply list_world_allocated. by right. }
    split; [done|]. split; [done|]. split.
    + intros u' a' hdrs'. rewrite !request_list_info_run. f_equal.
      simpl default. unfold list_world at 2.
      change (list_world None None AQS_REQUEST_TEMPLATE w1) with w1.
      by rewrite Ee, Ek.
    + intros p' b' en' fips' u' a' hdrs'.
      rewrite !request_daily_summary_run. f_equal.
      simpl default. unfold daily_world.
      change (put_world None AQS_REQUEST_TEMPLATE "email" w1) with w1.
      change (put_world None AQS_REQUEST_TEMPLATE "key" w1) with w1.
      by rewrite Ee, Ek.
  - intros e k p b en fips u a hdrs w w1 d1.
    set (l := AQS_REQUEST_TEMPLATE).
    assert (heap w1 = heap (daily_world e k p b en fips l w)) as Hheap.
    { subst w1. rewrite request_daily_summary_run. apply finish_heap. }
    assert (d1 = merged_daily e k p b en fips (dict_at w l)) as Hd1.
    { subst d1. rewrite (dict_at_heap _ _ _ Hheap). apply daily_world_dict. }
    destruct (merged_daily_persisted e k p b en fips (dict_at w l))
      as (He & Hk & Hp & Hb & Hen). rewrite <- Hd1 in He, Hk, Hp, Hb, Hen.
    assert (forall f, fips = Some f -> fips_applies fips = true ->
              d1 !! "state" = Some (PStr (str_take 2 f)) /\
              d1 !! "county" = Some (PStr (str_drop 2 f))) as Hf.
    { intros f -> Hf. rewrite Hd1. by apply put_fips_set. }
    assert (put_world e l "email" w1 = w1) as Ee.
    { apply put_world_same; [|done]. intros Ht. rewrite Hheap.
      apply daily_world_allocated. tauto. }
    assert (put_world k l "key" w1 = w1) as Ek.
    { apply put_world_same; [|done]. intros Ht. rewrite Hheap.
      apply daily_world_allocated. tauto. }
    do 5 (split; [done|]). split; [|split].
    + intros f -> Hlen. apply Hf; [done|]. by apply fips_applies_length.
    + intros u' a' hdrs'. rewrite !request_daily_summary_run. f_equal.
      simpl default. fold l. unfold daily_world at 2.
      change (daily_world None None None None None None l w1) with w1.
      rewrite Ee, Ek.
      rewrite (put_world_same p), (put_world_same b), (put_world_same en),
        put_fips_world_same; try done;
        intros Ht; rewrite Hheap; apply daily_world_allocated; tauto.
    + intros u' a' hdrs'. rewrite !request_list_info_run. f_equal.
      simpl default. fold l. unfold list_world at 2.
      change (list_world None None l w1) with w1.
      by rewrite Ee, Ek.
Qed.

End Claims.

(** ** The throttle *)

Section Throttle.

Variable net : nat -> string -> headers -> response.

(** Whatever the response, a request is preceded by one sleep of
    [API_THROTTLE_WAIT] seconds. *)
Lemma send_sleeps_first url hdrs w :
  exists tail,
    trace (send net url hdrs w).2
    = (trace w ++ [EvSleep API_THROTTLE_WAIT; EvGet url hdrs] ++ tail)%list.
Proof.
  unfold send. destruct (net _ _ _); simpl.
  - exists [EvPrint e]. by rewrite <- app_assoc.
  - exists [EvPrint e]. by rewrite <- app_assoc.
  - by exists [].
Qed.

End Throttle.

(** C3: the wait before a request is [1/100 - 0.002 = 0.008] seconds,
    which is what a ceiling of 100 requests per second gives; the
    interval for 100 requests per minute, [60/100 - 0.002 = 0.598]
    seconds, is longer.  A request that fails is preceded by that same
    wait of 0.008 seconds. *)
Theorem throttle_wait_is_per_second :
  API_THROTTLE_WAIT = 0.008%float /\
  (60 / 100 - API_LATENCY_ASSUMED)%float = 0.598%float /\
  PrimFloat.ltb API_THROTTLE_WAIT (60 / 100 - API_LATENCY_ASSUMED) = true /\
  trace (request_list_info repr_of_zero net_down
           (Some "a@b") (Some "k") None None None None world0).2
  = [EvSleep 0.008%float;
     EvGet "https://aqs.epa.gov/data/api/list/classes?email=a@b&key=k" None;
     EvPrint connection_error].
Proof. repeat split; vm_compute; reflexivity. Qed.

(** ** The yearly value *)

Lemma collect_day_record d aqis day v w :
  has_aqi_key d = true -> record_aqi day = Some v ->
  collect_day (Some d) aqis day w
  = (Return (aqis ++ match v with Some q => [JNum q] | None => [] end)%list,
     w).
Proof.
  intros Hd Hday. destruct d; try discriminate Hd.
  unfold has_aqi_key in Hd.
  unfold collect_day, keys, bind, ret. rewrite Hd.
  destruct day; try discriminate Hday.
  unfold record_aqi in Hday. unfold subscript.
  destruct (assoc "aqi" items0) as [[]|]; try discriminate Hday;
    injection Hday as <-; cbn [is_null negb]; [|done].
  by rewrite app_nil_r.
Qed.

Lemma for_each_collect d w days vals :
  has_aqi_key d = true ->
  Forall2 (fun day v => record_aqi day = Some v) days vals ->
  forall acc,
    for_each (collect_day (Some d)) acc days w
    = (Return (acc ++ map JNum (non_null vals))%list, w).
Proof.
  intros Hd. induction 1 as [|day v days vals Hday _ IH]; intros acc;
    cbn [for_each].
  - unfold ret, non_null. cbn [omap list_omap map]. by rewrite app_nil_r.
  - rewrite (bind_run _ _ _ _ _ (collect_day_record _ _ _ _ _ Hd Hday)).
    rewrite IH. unfold non_null. destruct v as [q|]; cbn [omap list_omap id].
    + cbn [map]. by rewrite <- app_assoc.
    + by rewrite app_nil_r.
Qed.



(** When [data] is not bound, the first record stops the cell. *)
Lemma yearly_value_without_data items day days w :
  assoc "Data" items = Some (JArr (day :: days)) ->
  yearly_value None (JObj items) w = (Raise (NameError "data"), w).
Proof.
  intros Hitems. unfold yearly_value, subscript. by rewrite Hitems.
Qed.

(** With [data] bound as in [data_bound], the two examples of the
    specification give 10 and no value. *)
Lemma yearly_value_examples_with_data_bound w :
  yearly_value data_bound
    (success_doc [daily_record (JNum 5); daily_record JNull;
                  daily_record (JNum 15)]) w = (Return (Some 10%Q), w) /\
  yearly_value data_bound
    (success_doc [daily_record JNull; daily_record JNull]) w
  = (Return None, w).
Proof. split; reflexivity. Qed.

(** C1: as the notebook is written, no cell assigns [data], and the
    yearly value of the records with AQI 5, null and 15 is not 10: the
    loop stops with a [NameError] at the first record.  The same happens
    when every record has a null AQI. *)
Theorem yearly_value_stops_on_unbound_data :
  forall w,
    yearly_value None
      (success_doc [daily_record (JNum 5); daily_record JNull;
                    daily_record (JNum 15)]) w
    = (Raise (NameError "data"), w) /\
    yearly_value None
      (success_doc [daily_record JNull; daily_record JNull]) w
    = (Raise (NameError "data"), w).
Proof. intros w. split; reflexivity. Qed.

(** ** The table *)

(** A row survives [df[df.aqi > 0]] exactly when its value is a positive
    number. *)
Lemma df_filter_rows aqi year q y :
  (q, y) ∈ df_filter aqi year <->
  (Some q, y) ∈ zip aqi year /\ Qpositive q = true.
Proof.
  unfold df_filter. rewrite list_elem_of_omap. split.
  - intros ([[q'|] y'] & Hin & Hrow); simpl in Hrow; [|done].
    destruct (Qpositive q') eqn:Hq; [|done]. by injection Hrow as -> ->.
  - intros [Hin Hq]. exists (Some q, y). simpl. by rewrite Hq.
Qed.

(** Every row of the table has a positive mean: a year whose mean is
    zero has no row, whatever it observed. *)
Lemma df_filter_positive aqi year q y :
  (q, y) ∈ df_filter aqi year -> (0 < q)%Q.
Proof.
  rewrite df_filter_rows. intros [_ Hq]. unfold Qpositive in Hq.
  unfold Qlt. simpl. lia.
Qed.

(** C8: with the service of [net_1985], the notebook as written produces
    no table at all, because the first year that has records stops the
    aggregation with a [NameError].  With [data] bound, the table has a
    row for 1986 but none for 1985, a year with one non-null observation
    (AQI 0): the filter [aqi > 0] removes its mean of zero. *)
Theorem final_table_misses_observed_years :
  (final_table repr_of_zero net_1985 None world0).1
    = Raise (NameError "data") /\
  exists rows,
    (final_table repr_of_zero net_1985 data_bound world0).1 = Return rows /\
    length rows = 38%nat /\
    (15%Q, 1986) ∈ rows /\
    forall q, (q, 1985) ∉ rows.
Proof.
  split; [vm_compute; reflexivity|].
  eexists. split; [vm_compute; reflexivity|].
  split; [reflexivity|]. split.
  - apply list_elem_of_here.
  - intros q Hin. apply list_elem_of_In in Hin.
    apply (in_map snd) in Hin. simpl in Hin. vm_compute in Hin.
    repeat (destruct Hin as [Hin|Hin]; [discriminate Hin|]). done.
Qed.

(** ** Concrete calls *)

(** C2 at a list call without email, and at a daily call without dates,
    both on the untouched default template. *)
Lemma missing_field_raises_before_io_witness :
  (exists f ex,
     first_unset (merged_list None (Some "k")
                    (dict_at world0 AQS_REQUEST_TEMPLATE)) list_required
       = Some f /\
     unset (merged_list None (Some "k")
              (dict_at world0 AQS_REQUEST_TEMPLATE)) f = true /\
     (request_list_info repr_of_zero net_down
        None (Some "k") None None None None world0).1 = Raise ex /\
     names f ex = true /\
     trace (request_list_info repr_of_zero net_down
              None (Some "k") None None None None world0).2 = trace world0)
  /\
  (exists f ex,
     first_unset (merged_daily (Some "a@b") (Some "k") (Some "81102")
                    None None None (dict_at world0 AQS_REQUEST_TEMPLATE))
       daily_required = Some f /\
     unset (merged_daily (Some "a@b") (Some "k") (Some "81102")
              None None None (dict_at world0 AQS_REQUEST_TEMPLATE)) f
       = true /\
     (request_daily_summary repr_of_zero net_down
        (Some "a@b") (Some "k") (Some "81102") None None None
        None None None None world0).1 = Raise ex /\
     names f ex = true /\
     trace (request_daily_summary repr_of_zero net_down
              (Some "a@b") (Some "k") (Some "81102") None None None
              None None None None world0).2 = trace world0).
Proof.
  split.
  - apply (proj1 (missing_field_raises_before_io repr_of_zero net_down)
             None (Some "k") None None None None world0).
    left. reflexivity.
  - apply (proj2 (missing_field_raises_before_io repr_of_zero net_down)
             (Some "a@b") (Some "k") (Some "81102") None None None
             None None None None world0).
    right. right. right. left. reflexivity.
Defined.

(** C4 at the FIPS code of Pennington County. *)
Lemma fips_of_length_five_is_split_witness :
  let r := request_daily_summary repr_of_zero net_failed
             (Some "a@b") (Some "k") (Some "81102")
             (Some "19850501") (Some "19851031") (Some "46103")
             None None None None world0 in
  dict_at r.2 AQS_REQUEST_TEMPLATE !! "state" = Some (PStr "46") /\
  dict_at r.2 AQS_REQUEST_TEMPLATE !! "county" = Some (PStr "103") /\
  String.length "46" = 2%nat /\ String.length "103" = 3%nat /\
  "46" +:+ "103" = "46103".
Proof.
  apply (fips_of_length_five_is_split repr_of_zero net_failed
           (Some "a@b") (Some "k") (Some "81102")
           (Some "19850501") (Some "19851031") "46103"
           None None None None world0).
  reflexivity.
Defined.

(** C5 at a list call whose GET raises and at a daily call whose
    response does not decode. *)
Lemma transport_failure_is_printed_and_none_witness :
  (let r := request_list_info repr_of_zero net_down
              (Some "a@b") (Some "k") None None None None world0 in
   r.1 = Return JNull /\
   trace r.2
   = (trace world0 ++
      [EvSleep API_THROTTLE_WAIT;
       EvGet (API_REQUEST_URL +:+ "/list/classes?email=a@b&key=k") None;
       EvPrint connection_error])%list)
  /\
  (let r := request_daily_summary repr_of_zero net_not_json
              (Some "a@b") (Some "k") (Some "81102")
              (Some "19850501") (Some "19851031") (Some "46103")
              None None None None world0 in
   r.1 = Return JNull /\
   trace r.2
   = (trace world0 ++
      [EvSleep API_THROTTLE_WAIT;
       EvGet (API_REQUEST_URL +:+
              "/dailyData/byCounty?email=a@b&key=k&param=81102&bdate=19850501&edate=19851031&state=46&county=103")
             None;
       EvPrint decode_error])%list).
Proof.
  split.
  - apply (proj1 (transport_failure_is_printed_and_none
                    repr_of_zero net_down)
             (Some "a@b") (Some "k") None None None None world0
             "/list/classes?email=a@b&key=k" connection_error).
    + reflexivity.
    + reflexivity.
    + left. reflexivity.
  - apply (proj2 (transport_failure_is_printed_and_none
                    repr_of_zero net_not_json)
             (Some "a@b") (Some "k") (Some "81102")
             (Some "19850501") (Some "19851031") (Some "46103")
             None None None None world0
             "/dailyData/byCounty?email=a@b&key=k&param=81102&bdate=19850501&edate=19851031&state=46&county=103"
             decode_error).
    + reflexivity.
    + reflexivity.
    + right. reflexivity.
Defined.

(** C6 at a service that answers every request with a "Failed" status. *)
Lemma non_success_document_is_returned_witness :
  (request_list_info repr_of_zero net_failed
     (Some "a@b") (Some "k") None None None None world0).1
    = Return failed_doc
  /\
  (request_daily_summary repr_of_zero net_failed
     (Some "a@b") (Some "k") (Some "81102")
     (Some "19850501") (Some "19851031") (Some "46103")
     None None None None world0).1 = Return failed_doc.
Proof.
  split.
  - apply (proj1 (non_success_document_is_returned
                    repr_of_zero net_failed)
             (Some "a@b") (Some "k") None None None None world0
             "/list/classes?email=a@b&key=k" failed_doc "Failed");
      [reflexivity | reflexivity | reflexivity | reflexivity
      | discriminate].
  - apply (proj2 (non_success_document_is_returned
                    repr_of_zero net_failed)
             (Some "a@b") (Some "k") (Some "81102")
             (Some "19850501") (Some "19851031") (Some "46103")
             None None None None world0
             "/dailyData/byCounty?email=a@b&key=k&param=81102&bdate=19850501&edate=19851031&state=46&county=103"
             failed_doc "Failed");
      [reflexivity | reflexivity | reflexivity | reflexivity
      | discriminate].
Defined.

(** C7 at the parameter-class field of a private copy, for a list call
    that passes both credentials, and at the county field for a daily
    call that passes no FIPS code. *)
Lemma unspecified_fields_are_kept_witness :
  (let w := (dict_copy AQS_REQUEST_TEMPLATE world0).2 in
   let r := request_list_info repr_of_zero net_failed
              (Some "a@b") (Some "k") None None (Some 1%nat) None w in
   dict_at r.2 1%nat !! "pclass" = dict_at w 1%nat !! "pclass" /\
   forall l', 1%nat <> l' -> dict_at r.2 l' = dict_at w l')
  /\
  (let r := request_daily_summary repr_of_zero net_failed
              (Some "a@b") (Some "k") (Some "81102")
              (Some "19850501") (Some "19851031") None
              None None None None world0 in
   dict_at r.2 AQS_REQUEST_TEMPLATE !! "county"
   = dict_at world0 AQS_REQUEST_TEMPLATE !! "county" /\
   forall l', AQS_REQUEST_TEMPLATE <> l' -> dict_at r.2 l' = dict_at world0 l').
Proof.
  split.
  - apply (proj1 (unspecified_fields_are_kept repr_of_zero net_failed)
             (Some "a@b") (Some "k") None None (Some 1%nat) None
             (dict_copy AQS_REQUEST_TEMPLATE world0).2 "pclass");
      discriminate.
  - apply (proj2 (unspecified_fields_are_kept repr_of_zero net_failed)
             (Some "a@b") (Some "k") (Some "81102")
             (Some "19850501") (Some "19851031") None
             None None None None world0 "county");
      try discriminate.
    reflexivity.
Defined.

(** C9 at a three-character code. *)
Lemma fips_of_other_length_is_ignored_witness :
  let r := request_daily_summary repr_of_zero net_failed
             (Some "a@b") (Some "k") (Some "81102")
             (Some "19850501") (Some "19851031") (Some "461")
             None None None None world0 in
  r = request_daily_summary repr_of_zero net_failed
        (Some "a@b") (Some "k") (Some "81102")
        (Some "19850501") (Some "19851031") None
        None None None None world0 /\
  dict_at r.2 AQS_REQUEST_TEMPLATE !! "state"
  = dict_at world0 AQS_REQUEST_TEMPLATE !! "state" /\
  dict_at r.2 AQS_REQUEST_TEMPLATE !! "county"
  = dict_at world0 AQS_REQUEST_TEMPLATE !! "county".
Proof.
  apply (fips_of_other_length_is_ignored repr_of_zero net_failed
           (Some "a@b") (Some "k") (Some "81102")
           (Some "19850501") (Some "19851031") "461"
           None None None None world0).
  simpl. lia.
Defined.

(** C10 at a daily call that passes everything and omits the template:
    the module-level template holds the seven values afterwards, and a
    list call without any argument then goes through with them. *)
Lemma default_template_is_shared_witness :
  let w1 := (request_daily_summary repr_of_zero net_failed
               (Some "a@b") (Some "k") (Some "81102")
               (Some "19850501") (Some "19851031") (Some "46103")
               None None None None world0).2 in
  let d1 := dict_at w1 AQS_REQUEST_TEMPLATE in
  d1 !! "email" = Some (PStr "a@b") /\
  d1 !! "key" = Some (PStr "k") /\
  d1 !! "param" = Some (PStr "81102") /\
  d1 !! "begin_date" = Some (PStr "19850501") /\
  d1 !! "end_date" = Some (PStr "19851031") /\
  (d1 !! "state" = Some (PStr "46") /\ d1 !! "county" = Some (PStr "103")) /\
  request_list_info repr_of_zero net_failed
    None None None None None None w1
  = request_list_info repr_of_zero net_failed
      (Some "a@b") (Some "k") None None None None w1.
Proof.
  intros w1 d1.
  destruct (proj2 (default_template_is_shared repr_of_zero net_failed)
              (Some "a@b") (Some "k") (Some "81102")
              (Some "19850501") (Some "19851031") (Some "46103")
              None None None world0)
    as (He & Hk & Hp & Hb & Hen & Hf & _ & Hlist).
  split; [by apply He|]. split; [by apply Hk|]. split; [by apply Hp|].
  split; [by apply Hb|]. split; [by apply Hen|].
  split; [by apply (Hf "46103")|]. apply Hlist.
Defined.

(** ** URL composition *)

Lemma str_app_nil_l (s : string) : "" +:+ s = s.
Proof. reflexivity. Qed.

Lemma str_app_cons c (s t : string) : String c s +:+ t = String c (s +:+ t).
Proof. reflexivity. Qed.

Lemma str_app_nil_r (s : string) : s +:+ "" = s.
Proof. induction s as [|c s IH]; [done|]. by rewrite str_app_cons, IH. Qed.

Lemma str_app_assoc (s t u : string) : (s +:+ t) +:+ u = s +:+ t +:+ u.
Proof.
  induction s as [|c s IH]; [done|]. by rewrite !str_app_cons, IH.
Qed.

Lemma fmt_app_app p q r : fmt_app p (fmt_app q r) = fmt_app (p +:+ q) r.
Proof. destruct r; simpl; [|done|done]. by rewrite str_app_assoc. Qed.

Lemma fmt_app_nil r : fmt_app "" r = r.
Proof. by destruct r. Qed.

Section Format.

Variable float_repr : float -> string.

Lemma py_format_go_lit kw s rest :
  brace_free s = true ->
  py_format_go float_repr kw None (s +:+ rest)
  = fmt_app s (py_format_go float_repr kw None rest).
Proof.
  induction s as [|c s IH]; intros Hs.
  - by rewrite str_app_nil_l, fmt_app_nil.
  - cbn [brace_free] in Hs.
    apply andb_prop in Hs as [[Ho Hc]%andb_prop Hs].
    apply negb_true_iff in Ho, Hc.
    rewrite str_app_cons. cbn [py_format_go]. rewrite Ho, Hc.
    rewrite (IH Hs). by rewrite fmt_app_app.
Qed.

Lemma py_format_go_name kw acc n rest :
  name_chars n = true ->
  py_format_go float_repr kw (Some acc) (n +:+ "}" +:+ rest)
  = match format_field float_repr kw (acc +:+ n) with
    | FmtOk v => fmt_app v (py_format_go float_repr kw None rest)
    | r => r
    end.
Proof.
  revert acc. induction n as [|c n IH]; intros acc Hn.
  - rewrite str_app_nil_l, str_app_nil_r. reflexivity.
  - cbn [name_chars] in Hn.
    apply andb_prop in Hn as [[Hc Hsp]%andb_prop Hn].
    apply negb_true_iff in Hc, Hsp.
    rewrite str_app_cons. cbn [py_format_go]. rewrite Hc, Hsp.
    rewrite (IH _ Hn). by rewrite str_app_assoc.
Qed.

Lemma format_field_plain kw n :
  plain_name n = true ->
  format_field float_repr kw n
  = match kw !! n with
    | Some v => FmtOk (py_str float_repr v)
    | None => FmtRaise (KeyError n)
    end.
Proof.
  unfold plain_name, format_field, plain_numeral.
  intros [[Hne Hd]%andb_prop _]%andb_prop.
  apply negb_true_iff in Hne, Hd. rewrite Hne, Hd.
  by rewrite andb_false_r.
Qed.

Lemma py_format_go_field kw n rest :
  plain_name n = true ->
  py_format_go float_repr kw None ("{" +:+ n +:+ "}" +:+ rest)
  = match kw !! n with
    | Some v =>
        fmt_app (py_str float_repr v) (py_format_go float_repr kw None rest)
    | None => FmtRaise (KeyError n)
    end.
Proof.
  intros Hn. pose proof Hn as Hplain.
  unfold plain_name in Hn.
  apply andb_prop in Hn as [[Hne _]%andb_prop Hchars].
  destruct n as [|c n]; [done|].
  pose proof Hchars as Hc. cbn [name_chars] in Hc.
  apply andb_prop in Hc as [[Hclose Hsp]%andb_prop Hrest].
  apply negb_true_iff in Hclose.
  assert (is_char c "{" = false) as Hopen.
  { unfold field_special in Hsp. apply negb_true_iff in Hsp.
    do 6 (apply orb_false_elim in Hsp as [Hsp _]). exact Hsp. }
  change ("{" +:+ String c n +:+ "}" +:+ rest)
    with (String "{" (String c (n +:+ "}" +:+ rest))).
  cbn [py_format_go].
  change (is_char "{" "{") with true. cbv iota. rewrite Hopen, Hclose.
  apply negb_true_iff in Hsp. rewrite Hsp.
  rewrite (py_format_go_name _ _ _ _ Hrest).
  rewrite str_app_nil_l, str_app_cons, str_app_nil_l.
  rewrite (format_field_plain _ _ Hplain).
  by destruct (kw !! String c n).
Qed.

(** On the text of plain segments [str.format] is [render]. *)
Lemma py_format_unparse kw segs :
  forallb plain segs = true ->
  py_format float_repr (unparse segs) kw = render float_repr kw segs.
Proof.
  unfold py_format. induction segs as [|[s|n] segs IH]; intros Hp.
  - reflexivity.
  - cbn [forallb plain] in Hp. apply andb_prop in Hp as [Hs Hp].
    cbn [unparse render]. rewrite (py_format_go_lit _ _ _ Hs).
    by rewrite (IH Hp).
  - cbn [forallb plain] in Hp. apply andb_prop in Hp as [Hn Hp].
    cbn [unparse render]. rewrite (py_format_go_field _ _ _ Hn).
    by rewrite (IH Hp).
Qed.

Lemma py_format_plain kw fmt :
  plain_format fmt = true ->
  py_format float_repr fmt kw = render float_repr kw (segments_of fmt).
Proof.
  unfold plain_format. intros [Hfmt%String.eqb_eq Hp]%andb_prop.
  rewrite <- Hfmt at 1. by apply py_format_unparse.
Qed.

End Format.

Section Urls.

Variable float_repr : float -> string.
Variable net : nat -> string -> headers -> response.

Lemma render_missing kw segs n :
  List.find (lacks kw) (fields segs) = Some n ->
  render float_repr kw segs = FmtRaise (KeyError n).
Proof.
  induction segs as [|[s|m] segs IH]; cbn [fields omap list_omap render].
  - done.
  - intros H. by rewrite (IH H).
  - cbn [List.find]. unfold lacks at 1.
    destruct (kw !! m).
    + intros H. by rewrite (IH H).
    + by intros [= <-].
Qed.

Lemma render_present kw segs :
  List.find (lacks kw) (fields segs) = None ->
  exists path, render float_repr kw segs = FmtOk path.
Proof.
  induction segs as [|[s|m] segs IH]; cbn [fields omap list_omap render].
  - by eexists.
  - intros [path ->]%IH. by eexists.
  - cbn [List.find]. unfold lacks at 1.
    destruct (kw !! m); [|done].
    intros [path ->]%IH. by eexists.
Qed.

Lemma render_agree kw kw' segs :
  (forall n, In n (fields segs) -> kw !! n = kw' !! n) ->
  render float_repr kw segs = render float_repr kw' segs.
Proof.
  induction segs as [|[s|m] segs IH]; cbn [fields omap list_omap render];
    intros H.
  - done.
  - by rewrite (IH H).
  - rewrite <- (H m) by (by left).
    rewrite IH; [done|]. intros n Hn. apply H. by right.
Qed.

(** X1: a call whose action is a plain format string, and whose template
    has a value for each of its fields, sends its one request to the
    endpoint URL followed by the action with every field replaced by
    the string of the template's value. *)
Theorem request_url_is_the_rendered_action :
  (forall e k u a t hdrs w,
     let l := default AQS_REQUEST_TEMPLATE t in
     let d := merged_list e k (dict_at w l) in
     let action := default API_ACTION_LIST_CLASSES a in
     plain_format action = true ->
     first_unset d list_required = None ->
     List.find (lacks d) (fields (segments_of action)) = None ->
     exists path,
       render float_repr d (segments_of action) = FmtOk path /\
       request_list_info float_repr net e k u a t hdrs w
       = send net (default API_REQUEST_URL u +:+ path) hdrs
           (list_world e k l w))
  /\
  (forall e k p b en fips u a t hdrs w,
     let l := default AQS_REQUEST_TEMPLATE t in
     let d := merged_daily e k p b en fips (dict_at w l) in
     let action := default API_ACTION_DAILY_SUMMARY_COUNTY a in
     plain_format action = true ->
     first_unset d daily_required = None ->
     List.find (lacks d) (fields (segments_of action)) = None ->
     exists path,
       render float_repr d (segments_of action) = FmtOk path /\
       request_daily_summary float_repr net e k p b en fips u a t hdrs w
       = send net (default API_REQUEST_URL u +:+ path) hdrs
           (daily_world e k p b en fips l w)).
Proof.
  split.
  - intros e k u a t hdrs w l d action Hplain Hset Hall.
    destruct (render_present _ _ Hall) as [path Hpath].
    exists path. split; [done|].
    rewrite request_list_info_run. apply finish_sends.
    + rewrite list_world_dict. by apply check_fields_none.
    + rewrite list_world_dict. fold l d action.
      by rewrite py_format_plain.
  - intros e k p b en fips u a t hdrs w l d action Hplain Hset Hall.
    destruct (render_present _ _ Hall) as [path Hpath].
    exists path. split; [done|].
    rewrite request_daily_summary_run. apply finish_sends.
    + rewrite daily_world_dict. by apply check_fields_none.
    + rewrite daily_world_dict. fold l d action.
      by rewrite py_format_plain.
Qed.

(** X2: when the template has no value for a field of the action, the
    call raises [KeyError] for the first such field; it has written the
    arguments into the template, and it has neither slept nor sent
    anything. *)
Theorem missing_placeholder_raises_before_io :
  (forall e k u a t hdrs w n,
     let l := default AQS_REQUEST_TEMPLATE t in
     let d := merged_list e k (dict_at w l) in
     let action := default API_ACTION_LIST_CLASSES a in
     plain_format action = true ->
     first_unset d list_required = None ->
     List.find (lacks d) (fields (segments_of action)) = Some n ->
     request_list_info float_repr net e k u a t hdrs w
     = (Raise (KeyError n), list_world e k l w) /\
     trace (list_world e k l w) = trace w)
  /\
  (forall e k p b en fips u a t hdrs w n,
     let l := default AQS_REQUEST_TEMPLATE t in
     let d := merged_daily e k p b en fips (dict_at w l) in
     let action := default API_ACTION_DAILY_SUMMARY_COUNTY a in
     plain_format action = true ->
     first_unset d daily_required = None ->
     List.find (lacks d) (fields (segments_of action)) = Some n ->
     request_daily_summary float_repr net e k p b en fips u a t hdrs w
     = (Raise (KeyError n), daily_world e k p b en fips l w) /\
     trace (daily_world e k p b en fips l w) = trace w).
Proof.
  split.
  - intros e k u a t hdrs w n l d action Hplain Hset Hn.
    split; [|apply list_world_trace].
    rewrite request_list_info_run. unfold finish.
    rewrite list_world_dict. fold l d action.
    rewrite (check_fields_none _ _ Hset), py_format_plain by done.
    by rewrite (render_missing _ _ _ Hn).
  - intros e k p b en fips u a t hdrs w n l d action Hplain Hset Hn.
    split; [|apply daily_world_trace].
    rewrite request_daily_summary_run. unfold finish.
    rewrite daily_world_dict. fold l d action.
    rewrite (check_fields_none _ _ Hset), py_format_plain by done.
    by rewrite (render_missing _ _ _ Hn).
Qed.



Lemma check_field_set d k msg s :
  d !! k = Some (PStr s) -> s <> "" -> check_field d k msg = None.
Proof.
  intros Hk Hs%truthy_str. unfold check_field. by rewrite Hk, Hs.
Qed.

(** X3: the default requests go to URLs made of the merged values of
    their fields.  The daily request takes the state and county fields
    as they are: nothing checks them, and empty ones are sent empty. *)
Theorem default_urls_and_unchecked_fips :
  (forall e k hdrs t w ve vk,
     let l := default AQS_REQUEST_TEMPLATE t in
     let d := merged_list e k (dict_at w l) in
     d !! "email" = Some (PStr ve) -> ve <> "" ->
     d !! "key" = Some (PStr vk) -> vk <> "" ->
     request_list_info float_repr net e k None None t hdrs w
     = send net (list_classes_url ve vk) hdrs (list_world e k l w))
  /\
  (forall e k p b en fips hdrs t w ve vk vp vb ven st co,
     let l := default AQS_REQUEST_TEMPLATE t in
     let d := merged_daily e k p b en fips (dict_at w l) in
     d !! "email" = Some (PStr ve) -> ve <> "" ->
     d !! "key" = Some (PStr vk) -> vk <> "" ->
     d !! "param" = Some (PStr vp) -> vp <> "" ->
     d !! "begin_date" = Some (PStr vb) -> vb <> "" ->
     d !! "end_date" = Some (PStr ven) -> ven <> "" ->
     d !! "state" = Some (PStr st) ->
     d !! "county" = Some (PStr co) ->
     request_daily_summary float_repr net e k p b en fips None None t hdrs w
     = send net (daily_county_url ve vk vp vb ven st co) hdrs
         (daily_world e k p b en fips l w)).
Proof.
  split.
  - intros e k hdrs t w ve vk l d He Hve Hk Hvk.
    rewrite request_list_info_run. unfold finish.
    rewrite list_world_dict. fold l d.
    cbn [check_fields list_required].
    rewrite (check_field_set _ _ _ _ He Hve), (check_field_set _ _ _ _ Hk Hvk).
    cbn [default]. rewrite py_format_plain by reflexivity.
    let segs := eval vm_compute in (segments_of API_ACTION_LIST_CLASSES) in
    change (segments_of API_ACTION_LIST_CLASSES) with segs.
    cbn [render]. rewrite He, Hk. cbn [py_str fmt_app].
    by rewrite !str_app_nil_l, !str_app_nil_r.
  - intros e k p b en fips hdrs t w ve vk vp vb ven st co l d
      He Hve Hk Hvk Hp Hvp Hb Hvb Hen Hven Hst Hco.
    rewrite request_daily_summary_run. unfold finish.
    rewrite daily_world_dict. fold l d.
    cbn [check_fields daily_required].
    rewrite (check_field_set _ _ _ _ He Hve), (check_field_set _ _ _ _ Hk Hvk),
      (check_field_set _ _ _ _ Hp Hvp), (check_field_set _ _ _ _ Hb Hvb),
      (check_field_set _ _ _ _ Hen Hven).
    cbn [default]. rewrite py_format_plain by reflexivity.
    let segs :=
      eval vm_compute in (segments_of API_ACTION_DAILY_SUMMARY_COUNTY) in
    change (segments_of API_ACTION_DAILY_SUMMARY_COUNTY) with segs.
    cbn [render]. rewrite He, Hk, Hp, Hb, Hen, Hst, Hco.
    cbn [py_str fmt_app].
    by rewrite !str_app_nil_l, !str_app_nil_r.
Qed.

End Urls.

(** ** Calling twice, and the keys of a template *)

Lemma put_same arg k d : persisted arg k d -> put arg k d = d.
Proof.
  intros Hk. destruct arg as [s|]; unfold put; [|done].
  destruct (truthy (PStr s)) eqn:Hs; [|done].
  apply truthy_str in Hs. apply insert_id. by apply Hk.
Qed.

Lemma put_fips_same fips d :
  (forall f, fips = Some f -> fips_applies fips = true ->
     d !! "state" = Some (PStr (str_take 2 f)) /\
     d !! "county" = Some (PStr (str_drop 2 f))) ->
  put_fips fips d = d.
Proof.
  intros Hk. destruct fips as [f|]; unfold put_fips; [|done].
  change (truthy (PStr f) && (String.length f =? 5)%nat)
    with (fips_applies (Some f)).
  destruct (fips_applies (Some f)) eqn:Hf; [|done].
  destruct (Hk f eq_refl eq_refl) as [Hst Hco].
  rewrite (insert_id d "state") by done. by apply insert_id.
Qed.

Lemma merged_list_twice e k d :
  merged_list e k (merged_list e k d) = merged_list e k d.
Proof.
  destruct (merged_list_persisted e k d) as [He Hk].
  unfold merged_list at 1. by rewrite (put_same e), (put_same k).
Qed.

Lemma merged_daily_twice e k p b en f d :
  merged_daily e k p b en f (merged_daily e k p b en f d)
  = merged_daily e k p b en f d.
Proof.
  destruct (merged_daily_persisted e k p b en f d)
    as (He & Hk & Hp & Hb & Hen).
  unfold merged_daily at 1.
  rewrite (put_same e), (put_same k), (put_same p), (put_same b),
    (put_same en) by done.
  apply put_fips_same. intros f' -> Hf. unfold merged_daily.
  by apply put_fips_set.
Qed.

Lemma put_dom arg k d : dom d ⊆ dom (put arg k d).
Proof.
  destruct arg as [s|]; unfold put; [|done].
  destruct (truthy (PStr s)); [|done].
  rewrite dom_insert. set_solver.
Qed.

Lemma put_fips_dom fips d : dom d ⊆ dom (put_fips fips d).
Proof.
  destruct fips as [f|]; unfold put_fips; [|done].
  destruct (_ && _); [|done].
  rewrite !dom_insert. set_solver.
Qed.

Lemma find_lacks_none kw names :
  (forall n, In n names -> n ∈ dom kw) ->
  List.find (lacks kw) names = None.
Proof.
  induction names as [|n names IH]; intros H; [done|].
  cbn [List.find]. unfold lacks at 1.
  pose proof (H n (or_introl eq_refl)) as [v Hv]%elem_of_dom. rewrite Hv.
  apply IH. intros m Hm. apply H. by right.
Qed.

Section Twice.

Variable float_repr : float -> string.
Variable net : nat -> string -> headers -> response.

Lemma finish_outcome_same required u a l hdrs w w' :
  (forall n m url h, net n url h = net m url h) ->
  dict_at w l = dict_at w' l ->
  (finish float_repr net required u a l hdrs w).1
  = (finish float_repr net required u a l hdrs w').1.
Proof.
  intros Hnet Hd. unfold finish. rewrite Hd.
  destruct (check_fields _ _); [done|].
  destruct (py_format _ _ _); [|done|done].
  unfold send. rewrite (Hnet (gets (trace w)) (gets (trace w'))).
  by destruct (net _ _ _).
Qed.

(** X5: against a service whose answers do not depend on how many
    requests came before, repeating a call with the same arguments gives
    the same result, and leaves every template as the first call left
    it. *)
Theorem repeated_call_is_idempotent :
  (forall n m url h, net n url h = net m url h) ->
  (forall e k u a t hdrs w,
     let r1 := request_list_info float_repr net e k u a t hdrs w in
     let r2 := request_list_info float_repr net e k u a t hdrs r1.2 in
     r2.1 = r1.1 /\ forall l, dict_at r2.2 l = dict_at r1.2 l)
  /\
  (forall e k p b en fips u a t hdrs w,
     let r1 := request_daily_summary float_repr net
                 e k p b en fips u a t hdrs w in
     let r2 := request_daily_summary float_repr net
                 e k p b en fips u a t hdrs r1.2 in
     r2.1 = r1.1 /\ forall l, dict_at r2.2 l = dict_at r1.2 l).
Proof.
  intros Hnet. split.
  - intros e k u a t hdrs w r1 r2.
    set (l := default AQS_REQUEST_TEMPLATE t).
    assert (heap r1.2 = heap (list_world e k l w)) as H1.
    { subst r1. rewrite request_list_info_run. apply finish_heap. }
    assert (forall l', dict_at (list_world e k l r1.2) l' = dict_at r1.2 l')
      as H2.
    { intros l'. destruct (decide (l = l')) as [<-|Hne].
      - rewrite list_world_dict, (dict_at_heap _ _ _ H1), list_world_dict.
        apply merged_list_twice.
      - by apply list_world_other. }
    split.
    + subst r2. rewrite request_list_info_run. fold l.
      unfold r1 at 2. rewrite request_list_info_run. fold l.
      apply finish_outcome_same; [done|].
      rewrite H2. by apply dict_at_heap.
    + intros l'. subst r2. rewrite request_list_info_run. fold l.
      rewrite (dict_at_heap _ _ _ (finish_heap _ _ _ _ _ _ _ _)).
      apply H2.
  - intros e k p b en fips u a t hdrs w r1 r2.
    set (l := default AQS_REQUEST_TEMPLATE t).
    assert (heap r1.2 = heap (daily_world e k p b en fips l w)) as H1.
    { subst r1. rewrite request_daily_summary_run. apply finish_heap. }
    assert (forall l', dict_at (daily_world e k p b en fips l r1.2) l'
                       = dict_at r1.2 l') as H2.
    { intros l'. destruct (decide (l = l')) as [<-|Hne].
      - rewrite daily_world_dict, (dict_at_heap _ _ _ H1), daily_world_dict.
        apply merged_daily_twice.
      - by apply daily_world_other. }
    split.
    + subst r2. rewrite request_daily_summary_run. fold l.
      unfold r1 at 2. rewrite request_daily_summary_run. fold l.
      apply finish_outcome_same; [done|].
      rewrite H2. by apply dict_at_heap.
    + intros l'. subst r2. rewrite request_daily_summary_run. fold l.
      rewrite (dict_at_heap _ _ _ (finish_heap _ _ _ _ _ _ _ _)).
      apply H2.
Qed.

(** X6: a template that has the twelve keys of [AQS_REQUEST_TEMPLATE]
    can be formatted into each of the eight endpoint actions, so no
    action raises for a missing field on it; and a call never removes a
    key from the template it is given. *)
Theorem template_keys_cover_every_action :
  (forall kw a,
     dom AQS_REQUEST_TEMPLATE_init ⊆ dom kw -> In a API_ACTIONS ->
     exists path, py_format float_repr a kw = FmtOk path)
  /\
  (forall e k u a t hdrs w,
     let l := default AQS_REQUEST_TEMPLATE t in
     dom (dict_at w l)
     ⊆ dom (dict_at (request_list_info float_repr net
                       e k u a t hdrs w).2 l))
  /\
  (forall e k p b en fips u a t hdrs w,
     let l := default AQS_REQUEST_TEMPLATE t in
     dom (dict_at w l)
     ⊆ dom (dict_at (request_daily_summary float_repr net
                       e k p b en fips u a t hdrs w).2 l)).
Proof.
  split; [|split].
  - intros kw a Hdom Ha.
    assert (forall n, n ∈ dom AQS_REQUEST_TEMPLATE_init -> n ∈ dom kw)
      as Hkeys by set_solver.
    assert (forall n, is_Some (AQS_REQUEST_TEMPLATE_init !! n) -> n ∈ dom kw)
      as Hk.
    { intros n Hn. apply Hkeys. by apply elem_of_dom. }
    simpl in Ha.
    repeat (destruct Ha as [<-|Ha]); [ .. | done ];
      (rewrite py_format_plain by reflexivity;
       apply render_present, find_lacks_none;
       intros n Hn; vm_compute in Hn;
       repeat (destruct Hn as [<-|Hn]); [ .. | done ];
       apply Hk; vm_compute; eauto).
  - intros e k u a t hdrs w l.
    rewrite request_list_info_run.
    rewrite (dict_at_heap _ _ _ (finish_heap _ _ _ _ _ _ _ _)).
    rewrite list_world_dict. unfold merged_list.
    etrans; [apply (put_dom e "email")|apply put_dom].
  - intros e k p b en fips u a t hdrs w l.
    rewrite request_daily_summary_run.
    rewrite (dict_at_heap _ _ _ (finish_heap _ _ _ _ _ _ _ _)).
    rewrite daily_world_dict. unfold merged_daily.
    etrans; [apply (put_dom e "email")|].
    etrans; [apply (put_dom k "key")|].
    etrans; [apply (put_dom p "param")|].
    etrans; [apply (put_dom b "begin_date")|].
    etrans; [apply (put_dom en "end_date")|apply put_fips_dom].
Qed.

End Twice.

(** ** The list cells *)

Lemma setitem_run l k v w : setitem l k v w = (Return tt, set_world l k v w).
Proof. reflexivity. Qed.

Lemma dict_copy_run l w :
  dict_copy l w = (Return (fresh (dom (heap w))), copy_world l w).
Proof. reflexivity. Qed.

Lemma set_world_trace l k v w : trace (set_world l k v w) = trace w.
Proof. reflexivity. Qed.

Lemma set_world_dict l k v w :
  dict_at (set_world l k v w) l = <[k := v]> (dict_at w l).
Proof. apply dict_at_insert_eq. Qed.

Lemma set_world_other l l' k v w :
  l <> l' -> dict_at (set_world l k v w) l' = dict_at w l'.
Proof.
  intros Hne. destruct w as [h t]. by apply dict_at_insert_ne.
Qed.

Lemma copy_world_trace l w : trace (copy_world l w) = trace w.
Proof. reflexivity. Qed.

Lemma copy_world_dict l w :
  dict_at (copy_world l w) (fresh (dom (heap w))) = dict_at w l.
Proof. apply dict_at_insert_eq. Qed.

Lemma copy_world_other l l' w :
  fresh (dom (heap w)) <> l' -> dict_at (copy_world l w) l' = dict_at w l'.
Proof.
  intros Hne. destruct w as [h t]. by apply dict_at_insert_ne.
Qed.

Lemma fresh_not_allocated w l :
  is_Some (heap w !! l) -> fresh (dom (heap w)) <> l.
Proof.
  intros Hl%elem_of_dom Heq. rewrite <- Heq in Hl.
  by apply is_fresh in Hl.
Qed.

Lemma header_status_inv doc s :
  header_status doc = Some s ->
  exists items h rest,
    doc = JObj items /\
    assoc "Header" items = Some (JArr (JObj h :: rest)) /\
    assoc "status" h = Some (JStr s).
Proof.
  unfold header_status. destruct doc as [| | | | |items]; try done.
  destruct (assoc "Header" items) as [[| | | |[|[| | | | |h] rest]|]|]
    eqn:Hh; try done.
  destruct (assoc "status" h) as [[]|] eqn:Hs; try done.
  intros [= <-]. by eexists _, _, _.
Qed.

Lemma print_response_status doc s w :
  header_status doc = Some s ->
  print_response doc w
  = if String.eqb s "Success" then subscript doc "Data" w
    else (Return doc, w).
Proof.
  intros (items & h & rest & -> & Hh & Hs)%header_status_inv.
  unfold print_response, subscript at 1. rewrite Hh.
  unfold bind at 1, ret at 1. unfold bind at 1, index0, ret at 1.
  unfold bind at 1, subscript at 1. rewrite Hs. unfold ret at 1.
  unfold is_str. by destruct (String.eqb s "Success").
Qed.

Lemma print_response_none w :
  print_response JNull w
  = (Raise (TypeError "'NoneType' object is not subscriptable"), w).
Proof. reflexivity. Qed.

(** ** Computations that do not touch the world *)

Lemma stateless_ret {A} (a : A) : stateless (ret a).
Proof. by exists (Return a). Qed.

Lemma stateless_raise {A} e : stateless (@raise A e).
Proof. by exists (Raise e). Qed.

Lemma stateless_unmodelled {A} : stateless (@unmodelled A).
Proof. by exists Unmodelled. Qed.

Lemma stateless_bind {A B} (m : M A) (k : A -> M B) :
  stateless m -> (forall a, stateless (k a)) -> stateless (bind m k).
Proof.
  intros [o Ho] Hk. destruct o as [a|e|].
  - destruct (Hk a) as [o' Ho']. exists o'. intros w.
    unfold bind. by rewrite Ho.
  - exists (Raise e). intros w. unfold bind. by rewrite Ho.
  - exists Unmodelled. intros w. unfold bind. by rewrite Ho.
Qed.

Lemma stateless_for_each {A B} (body : B -> A -> M B) l :
  (forall acc x, stateless (body acc x)) ->
  forall acc, stateless (for_each body acc l).
Proof.
  intros Hb. induction l as [|x l IH]; intros acc; cbn [for_each].
  - apply stateless_ret.
  - apply stateless_bind; [apply Hb|apply IH].
Qed.

Lemma stateless_world {A} (m : M A) w : stateless m -> (m w).2 = w.
Proof. intros [o Ho]. by rewrite Ho. Qed.

Lemma stateless_outcome {A} (m : M A) w w' :
  stateless m -> (m w).1 = (m w').1.
Proof. intros [o Ho]. by rewrite !Ho. Qed.

Lemma subscript_stateless j k : stateless (subscript j k).
Proof.
  unfold subscript. destruct j; try apply stateless_raise.
  destruct (assoc k items); [apply stateless_ret|apply stateless_raise].
Qed.

Lemma index0_stateless j : stateless (index0 j).
Proof.
  unfold index0. destruct j as [| | |[|]|[|]|];
    first [apply stateless_raise | apply stateless_ret].
Qed.

Lemma keys_stateless j : stateless (keys j).
Proof.
  unfold keys. destruct j; first [apply stateless_raise | apply stateless_ret].
Qed.

Lemma iterate_stateless j : stateless (iterate j).
Proof.
  unfold iterate.
  destruct j; first [apply stateless_raise | apply stateless_ret].
Qed.

Lemma np_mean_stateless l : stateless (np_mean l).
Proof.
  unfold np_mean. destruct (existsb is_list l); [apply stateless_unmodelled|].
  destruct (mapM number_of l); [apply stateless_ret|apply stateless_raise].
Qed.

Lemma collect_day_stateless data aqis day :
  stateless (collect_day data aqis day).
Proof.
  unfold collect_day. destruct data as [d|]; [|apply stateless_raise].
  apply stateless_bind; [apply keys_stateless|]. intros ks.
  destruct (existsb _ ks); [|apply stateless_ret].
  apply stateless_bind; [apply subscript_stateless|]. intros v.
  destruct (negb _); apply stateless_ret.
Qed.

Lemma yearly_value_stateless data req : stateless (yearly_value data req).
Proof.
  unfold yearly_value.
  apply stateless_bind; [apply subscript_stateless|]. intros data_field.
  apply stateless_bind; [apply iterate_stateless|]. intros days.
  apply stateless_bind.
  { apply stateless_for_each. apply collect_day_stateless. }
  intros aqis. destruct (0 <? length aqis)%nat; [|apply stateless_ret].
  apply stateless_bind; [apply np_mean_stateless|].
  intros m. apply stateless_ret.
Qed.

Lemma print_response_stateless doc : stateless (print_response doc).
Proof.
  unfold print_response.
  apply stateless_bind; [apply subscript_stateless|]. intros header.
  apply stateless_bind; [apply index0_stateless|]. intros first.
  apply stateless_bind; [apply subscript_stateless|]. intros status.
  destruct (is_str status "Success");
    [apply subscript_stateless|apply stateless_ret].
Qed.

Section ListCells.

Variable float_repr : float -> string.
Variable net : nat -> string -> headers -> response.

Lemma finish_rendered required u a l hdrs w path :
  check_fields (dict_at w l) required = None ->
  plain_format a = true ->
  render float_repr (dict_at w l) (segments_of a) = FmtOk path ->
  finish float_repr net required u a l hdrs w
  = send net (u +:+ path) hdrs w.
Proof.
  intros Hc Hp Hr. apply finish_sends; [done|].
  by rewrite py_format_plain.
Qed.

(** A request that is sent to [url], followed by the status branch. *)
Lemma respond_behaves (m : M json) ws url :
  m ws = send net url None ws ->
  let r := bind m print_response ws in
  match net (gets (trace ws)) url None with
  | JsonIs doc =>
      trace r.2
      = (trace ws ++ [EvSleep API_THROTTLE_WAIT; EvGet url None])%list /\
      (forall items data,
         doc = JObj items -> header_status doc = Some "Success" ->
         assoc "Data" items = Some data -> r.1 = Return data) /\
      (forall status,
         header_status doc = Some status -> status <> "Success" ->
         r.1 = Return doc)
  | GetRaises e | JsonRaises e =>
      trace r.2
      = (trace ws ++ [EvSleep API_THROTTLE_WAIT; EvGet url None;
                      EvPrint e])%list /\
      r.1 = Raise (TypeError "'NoneType' object is not subscriptable")
  end /\
  heap r.2 = heap ws.
Proof.
  intros Hm r. subst r. unfold bind. rewrite Hm. unfold send.
  destruct (net _ _ _) as [e|e|doc].
  - rewrite print_response_none. simpl. by rewrite <- app_assoc.
  - rewrite print_response_none. simpl. by rewrite <- app_assoc.
  - set (ws' := World _ _).
    rewrite (surjective_pairing (print_response doc ws')).
    rewrite (stateless_world _ ws' (print_response_stateless doc)).
    cbn [fst snd]. split; [|done]. split; [done|]. split.
    + intros items data -> Hs Hdata.
      rewrite (print_response_status _ _ _ Hs).
      change (String.eqb "Success" "Success") with true. cbv iota.
      unfold subscript. by rewrite Hdata.
    + intros status Hs Hne. rewrite (print_response_status _ _ _ Hs).
      apply String.eqb_neq in Hne. by rewrite Hne.
Qed.

Lemma list_cell_from_setup (cell : M json) a path :
  plain_format (default API_ACTION_LIST_CLASSES a) = true ->
  (forall w, exists ws l',
     cell w = bind (request_list_info float_repr net None None None a
                      (Some l') None) print_response ws /\
     trace ws = trace w /\
     (is_Some (heap w !! AQS_REQUEST_TEMPLATE) ->
      dict_at ws AQS_REQUEST_TEMPLATE = dict_at w AQS_REQUEST_TEMPLATE) /\
     check_fields (dict_at ws l') list_required = None /\
     render float_repr (dict_at ws l')
       (segments_of (default API_ACTION_LIST_CLASSES a)) = FmtOk path) ->
  list_cell_behaves net cell (API_REQUEST_URL +:+ path).
Proof.
  intros Hplain Hsetup w.
  destruct (Hsetup w) as (ws & l' & -> & Htrace & Hiso & Hcheck & Hrender).
  edestruct (respond_behaves
               (request_list_info float_repr net None None None a
                  (Some l') None) ws (API_REQUEST_URL +:+ path))
    as [Hresp Hheap].
  { rewrite request_list_info_run.
    change (list_world None None (default AQS_REQUEST_TEMPLATE (Some l')) ws)
      with ws.
    by apply finish_rendered. }
  rewrite Htrace in Hresp. split; [exact Hresp|].
  intros Halloc. rewrite (dict_at_heap _ _ _ Hheap). by apply Hiso.
Qed.

(** X7: each of the three list cells asks for one fixed URL, built from
    the credentials and the county of the notebook and not from what the
    module-level template holds.  On a "Success" status it prints the
    data, on any other status the whole document; when the request
    fails, the [None] it gets back is subscripted and the cell stops
    with a [TypeError].  The module-level template is left as it was. *)
Theorem list_cells_print_data_or_response :
  list_cell_behaves net (list_classes_cell float_repr net)
    (list_classes_url USERNAME APIKEY) /\
  list_cell_behaves net (list_params_cell float_repr net)
    (list_params_url USERNAME APIKEY AQI_PARAM_CLASS) /\
  list_cell_behaves net (list_sites_cell float_repr net)
    (list_sites_url USERNAME APIKEY "46" "103").
Proof.
  split; [|split].
  - apply (list_cell_from_setup _ None
             ("/list/classes?email=" +:+ USERNAME +:+ "&key=" +:+ APIKEY));
      [reflexivity|].
    intros w. unfold list_classes_cell.
    rewrite (bind_run _ _ _ _ _ (dict_copy_run _ _)).
    do 2 rewrite (bind_run _ _ _ _ _ (setitem_run _ _ _ _)).
    eexists _, _. split; [reflexivity|]. split; [reflexivity|].
    set (l' := fresh (dom (heap w))). set (ws := set_world _ _ _ _).
    assert (dict_at ws l' !! "email" = Some (PStr USERNAME) /\
            dict_at ws l' !! "key" = Some (PStr APIKEY)) as [He Hk].
    { subst ws. rewrite !set_world_dict.
      rewrite lookup_insert_ne by done. by rewrite !lookup_insert_eq. }
    split; [|split].
    + intros Halloc%fresh_not_allocated. subst ws.
      rewrite !set_world_other by done. by apply copy_world_other.
    + clearbody ws. cbn [check_fields list_required].
      by rewrite (check_field_set _ _ _ _ He), (check_field_set _ _ _ _ Hk).
    + clearbody ws. cbn [default from_option id].
      let segs := eval vm_compute in (segments_of API_ACTION_LIST_CLASSES)
      in change (segments_of API_ACTION_LIST_CLASSES) with segs.
      cbn [render]. rewrite He, Hk. cbn [py_str fmt_app].
      by rewrite !str_app_nil_l, !str_app_nil_r.
  - apply (list_cell_from_setup _ (Some API_ACTION_LIST_PARAMS)
             ("/list/parametersByClass?email=" +:+ USERNAME
              +:+ "&key=" +:+ APIKEY +:+ "&pc=" +:+ AQI_PARAM_CLASS));
      [reflexivity|].
    intros w. unfold list_params_cell.
    rewrite (bind_run _ _ _ _ _ (dict_copy_run _ _)).
    do 3 rewrite (bind_run _ _ _ _ _ (setitem_run _ _ _ _)).
    eexists _, _. split; [reflexivity|]. split; [reflexivity|].
    set (l' := fresh (dom (heap w))). set (ws := set_world _ _ _ _).
    assert (dict_at ws l' !! "email" = Some (PStr USERNAME) /\
            dict_at ws l' !! "key" = Some (PStr APIKEY) /\
            dict_at ws l' !! "pclass" = Some (PStr AQI_PARAM_CLASS))
      as (He & Hk & Hpc).
    { subst ws. rewrite !set_world_dict.
      repeat split;
        repeat first [rewrite lookup_insert_eq
                     |rewrite lookup_insert_ne by done]; done. }
    split; [|split].
    + intros Halloc%fresh_not_allocated. subst ws.
      rewrite !set_world_other by done. by apply copy_world_other.
    + clearbody ws. cbn [check_fields list_required].
      by rewrite (check_field_set _ _ _ _ He), (check_field_set _ _ _ _ Hk).
    + clearbody ws. cbn [default from_option id].
      let segs := eval vm_compute in (segments_of API_ACTION_LIST_PARAMS)
      in change (segments_of API_ACTION_LIST_PARAMS) with segs.
      cbn [render]. rewrite He, Hk, Hpc. cbn [py_str fmt_app].
      by rewrite !str_app_nil_l, !str_app_nil_r.
  - apply (list_cell_from_setup _ (Some API_ACTION_LIST_SITES)
             ("/list/sitesByCounty?email=" +:+ USERNAME
              +:+ "&key=" +:+ APIKEY +:+ "&state=" +:+ "46"
              +:+ "&county=" +:+ "103"));
      [reflexivity|].
    intros w. unfold list_sites_cell.
    rewrite (bind_run _ _ _ _ _ (dict_copy_run _ _)).
    do 4 rewrite (bind_run _ _ _ _ _ (setitem_run _ _ _ _)).
    eexists _, _. split; [reflexivity|]. split; [reflexivity|].
    set (l' := fresh (dom (heap w))). set (ws := set_world _ _ _ _).
    assert (dict_at ws l' !! "email" = Some (PStr USERNAME) /\
            dict_at ws l' !! "key" = Some (PStr APIKEY) /\
            dict_at ws l' !! "state" = Some (PStr "46") /\
            dict_at ws l' !! "county" = Some (PStr "103"))
      as (He & Hk & Hst & Hco).
    { subst ws. rewrite !set_world_dict.
      repeat split;
        repeat first [rewrite lookup_insert_eq
                     |rewrite lookup_insert_ne by done]; done. }
    split; [|split].
    + intros Halloc%fresh_not_allocated. subst ws.
      rewrite !set_world_other by done. by apply copy_world_other.
    + clearbody ws. cbn [check_fields list_required].
      by rewrite (check_field_set _ _ _ _ He), (check_field_set _ _ _ _ Hk).
    + clearbody ws. cbn [default from_option id].
      let segs := eval vm_compute in (segments_of API_ACTION_LIST_SITES)
      in change (segments_of API_ACTION_LIST_SITES) with segs.
      cbn [render]. rewrite He, Hk, Hst, Hco. cbn [py_str fmt_app].
      by rewrite !str_app_nil_l, !str_app_nil_r.
Qed.

End ListCells.

(** ** The aggregation loop *)

Lemma str_app_not_empty (s t : string) : t <> "" -> s +:+ t <> "".
Proof. destruct s; [done|]. by rewrite str_app_cons. Qed.

Lemma year_world_trace l y w : trace (year_world l y w) = trace w.
Proof. apply daily_world_trace. Qed.

Lemma year_world_other l l' y w :
  l <> l' -> dict_at (year_world l y w) l' = dict_at w l'.
Proof. apply daily_world_other. Qed.

Lemma year_world_dict l y w :
  dict_at (year_world l y w) l
  = <["end_date" := PStr (pretty y +:+ "1031")]>
      (<["begin_date" := PStr (pretty y +:+ "0501")]> (dict_at w l)).
Proof.
  unfold year_world. rewrite daily_world_dict.
  unfold merged_daily, put_fips, put.
  assert (truthy (PStr (pretty y +:+ "0501")) = true) as ->.
  { by apply truthy_str, str_app_not_empty. }
  assert (truthy (PStr (pretty y +:+ "1031")) = true) as ->.
  { by apply truthy_str, str_app_not_empty. }
  done.
Qed.

Lemma year_world_cell_dict l y w :
  cell_dict (dict_at w l) -> cell_dict (dict_at (year_world l y w) l).
Proof.
  intros (He & Hk & Hp & Hst & Hco). rewrite year_world_dict.
  unfold cell_dict. by rewrite !lookup_insert_ne by done.
Qed.

Lemma gets_app t t' : gets (t ++ t') = (gets t + gets t')%nat.
Proof. unfold gets. by rewrite List.filter_app, length_app. Qed.

Lemma gets_printed resp : gets (printed resp) = 0%nat.
Proof. by destruct resp. Qed.

Lemma bind_raises {A B} (m : M A) (k : A -> M B) w e w' :
  m w = (Raise e, w') -> bind m k w = (Raise e, w').
Proof. unfold bind. by intros ->. Qed.

Lemma bind_unmodelled {A B} (m : M A) (k : A -> M B) w w' :
  m w = (Unmodelled, w') -> bind m k w = (Unmodelled, w').
Proof. unfold bind. by intros ->. Qed.

Section Loop.

Variable float_repr : float -> string.
Variable net : nat -> string -> headers -> response.

Lemma send_run url hdrs w :
  send net url hdrs w
  = (Return (returned (net (gets (trace w)) url hdrs)),
     World (heap w)
       (trace w ++ [EvSleep API_THROTTLE_WAIT; EvGet url hdrs]
        ++ printed (net (gets (trace w)) url hdrs))%list).
Proof.
  unfold send. destruct (net _ _ _); simpl; by rewrite <- ?app_assoc.
Qed.

(** The request of one year. *)
Lemma year_request l y w :
  cell_dict (dict_at w l) ->
  request_daily_summary float_repr net None None None
    (Some (pretty y +:+ "0501")) (Some (pretty y +:+ "1031")) None
    None None (Some l) None w
  = send net (year_url y) None (year_world l y w).
Proof.
  intros Hcell. rewrite request_daily_summary_run. cbn [default from_option id].
  fold (year_world l y w).
  pose proof (year_world_cell_dict l y w Hcell) as (He & Hk & Hp & Hst & Hco).
  assert (dict_at (year_world l y w) l !! "begin_date"
          = Some (PStr (pretty y +:+ "0501"))) as Hb.
  { rewrite year_world_dict, lookup_insert_ne by done.
    by rewrite lookup_insert_eq. }
  assert (dict_at (year_world l y w) l !! "end_date"
          = Some (PStr (pretty y +:+ "1031"))) as Hen.
  { by rewrite year_world_dict, lookup_insert_eq. }
  generalize dependent (year_world l y w). intros w1 He Hk Hp Hst Hco Hb Hen.
  apply (finish_rendered _ _ _ _ _ _ _ _
           ("/dailyData/byCounty?email=" +:+ USERNAME
            +:+ "&key=" +:+ APIKEY +:+ "&param=" +:+ AQI_PARAMS_PARTICULATES
            +:+ "&bdate=" +:+ (pretty y +:+ "0501")
            +:+ "&edate=" +:+ (pretty y +:+ "1031")
            +:+ "&state=" +:+ "46" +:+ "&county=" +:+ "103")).
  - cbn [check_fields daily_required].
    rewrite (check_field_set _ _ _ _ He), (check_field_set _ _ _ _ Hk),
      (check_field_set _ _ _ _ Hp) by done.
    by rewrite (check_field_set _ _ _ _ Hb), (check_field_set _ _ _ _ Hen)
      by (by apply str_app_not_empty).
  - reflexivity.
  - let segs :=
      eval vm_compute in (segments_of API_ACTION_DAILY_SUMMARY_COUNTY) in
    change (segments_of API_ACTION_DAILY_SUMMARY_COUNTY) with segs.
    cbn [render]. rewrite He, Hk, Hp, Hb, Hen, Hst, Hco.
    cbn [py_str fmt_app].
    by rewrite !str_app_nil_l, !str_app_nil_r.
Qed.

(** One turn of the loop. *)
Lemma year_body_run data l acc y w :
  cell_dict (dict_at w l) ->
  let resp := net (gets (trace w)) (year_url y) None in
  year_body float_repr net data l acc y w
  = (match year_step data resp with
     | Return v => Return ((acc.1 ++ [v])%list, (acc.2 ++ [y])%list)
     | Raise e => Raise e
     | Unmodelled => Unmodelled
     end,
     World (heap (year_world l y w))
       (trace w ++ [EvSleep API_THROTTLE_WAIT; EvGet (year_url y) None]
        ++ printed resp)%list).
Proof.
  intros Hcell resp. unfold year_body.
  rewrite (bind_run _ _ _ (returned resp)
             (World (heap (year_world l y w))
                (trace w ++ [EvSleep API_THROTTLE_WAIT;
                             EvGet (year_url y) None] ++ printed resp)%list)).
  2:{ rewrite (year_request _ _ _ Hcell), send_run.
      by rewrite year_world_trace. }
  unfold year_step.
  destruct (yearly_value_stateless data (returned resp)) as [o Ho].
  unfold bind at 1. rewrite !Ho. by destruct o.
Qed.

(** The loop computes [loop_spec]. *)
Lemma for_each_year_body data l ys :
  forall acc w,
    cell_dict (dict_at w l) ->
    let r := for_each (year_body float_repr net data l) acc ys w in
    let s := loop_spec net data (gets (trace w)) acc ys in
    r.1 = s.1 /\ trace r.2 = (trace w ++ s.2)%list /\
    forall l', l <> l' -> dict_at r.2 l' = dict_at w l'.
Proof.
  induction ys as [|y ys IH]; intros acc w Hcell; cbn [for_each loop_spec].
  - cbn. by rewrite app_nil_r.
  - pose proof (year_body_run data l acc y w Hcell) as Hbody.
    cbv zeta in Hbody.
    set (resp := net (gets (trace w)) (year_url y) None) in *.
    set (evs := ([EvSleep API_THROTTLE_WAIT; EvGet (year_url y) None]
                 ++ printed resp)%list) in *.
    set (w1 := World (heap (year_world l y w)) (trace w ++ evs)%list) in *.
    assert (forall l', dict_at w1 l' = dict_at (year_world l y w) l') as Hd.
    { intros l'. by apply dict_at_heap. }
    destruct (year_step data resp) as [v|e|];
      [rewrite (bind_run _ _ _ _ _ Hbody)
      |rewrite (bind_raises _ _ _ _ _ Hbody)
      |rewrite (bind_unmodelled _ _ _ _ Hbody)]; cbv beta iota zeta.
    + assert (cell_dict (dict_at w1 l)) as Hcell1.
      { rewrite Hd. by apply year_world_cell_dict. }
      assert (gets (trace w1) = S (gets (trace w))) as Hgets.
      { subst w1 evs. cbn [trace]. rewrite !gets_app, gets_printed.
        cbn. lia. }
      destruct (IH ((acc.1 ++ [v])%list, (acc.2 ++ [y])%list) w1 Hcell1)
        as (Ho & Ht & Hl).
      rewrite Hgets in Ho, Ht. cbn [fst snd].
      split; [exact Ho|]. split.
      * rewrite Ht. subst w1. cbn [trace]. by rewrite <- app_assoc.
      * intros l' Hne. rewrite (Hl l' Hne), Hd.
        by apply year_world_other.
    + cbn [fst snd]. split; [done|]. split; [done|].
      intros l' Hne. rewrite Hd. by apply year_world_other.
    + cbn [fst snd]. split; [done|]. split; [done|].
      intros l' Hne. rewrite Hd. by apply year_world_other.
Qed.

(** The cell computes [loop_spec] on the years, and writes only into
    its own copy of the template. *)
Lemma aggregation_cell_run data w :
  let r := aggregation_cell float_repr net data w in
  let s := loop_spec net data (gets (trace w)) ([], []) years in
  r.1 = s.1 /\ trace r.2 = (trace w ++ s.2)%list /\
  forall l', fresh (dom (heap w)) <> l' -> dict_at r.2 l' = dict_at w l'.
Proof.
  unfold aggregation_cell.
  rewrite (bind_run _ _ _ _ _ (dict_copy_run _ _)).
  do 5 rewrite (bind_run _ _ _ _ _ (setitem_run _ _ _ _)).
  set (l := fresh (dom (heap w))). set (ws := set_world _ _ _ _).
  assert (cell_dict (dict_at ws l)) as Hcell.
  { subst ws. rewrite !set_world_dict. unfold cell_dict.
    repeat split;
      repeat first [rewrite lookup_insert_eq
                   |rewrite lookup_insert_ne by done]; done. }
  assert (forall l', l <> l' -> dict_at ws l' = dict_at w l') as Hother.
  { intros l' Hne. subst ws. rewrite !set_world_other by done.
    by apply copy_world_other. }
  assert (trace ws = trace w) as Htrace by done.
  clearbody ws.
  destruct (for_each_year_body data l years ([], []) ws Hcell)
    as (Ho & Ht & Hl).
  rewrite Htrace in Ho, Ht. cbv zeta. fold years.
  split; [exact Ho|]. split; [exact Ht|].
  intros l' Hne. rewrite (Hl l' Hne). by apply Hother.
Qed.

End Loop.

(** ** The loop as a function of the responses *)

Lemma year_step_failed data resp :
  returned resp = JNull ->
  year_step data resp
  = Raise (TypeError "'NoneType' object is not subscriptable").
Proof. unfold year_step. by intros ->. Qed.

Lemma year_step_return_printed data resp v :
  year_step data resp = Return v -> printed resp = [].
Proof.
  destruct resp as [e|e|doc]; [| |done];
    by rewrite year_step_failed.
Qed.

Lemma year_step_unbound resp v :
  year_step None resp = Return v -> v = None.
Proof.
  unfold year_step, yearly_value.
  destruct (subscript_stateless (returned resp) "Data") as [o1 H1].
  unfold bind at 1. rewrite H1. destruct o1 as [field| |]; [|done|done].
  destruct (iterate_stateless field) as [o2 H2].
  unfold bind at 1. rewrite H2. destruct o2 as [days| |]; [|done|done].
  destruct days as [|day days]; cbn [for_each].
  - cbn. by intros [= <-].
  - done.
Qed.

Lemma year_step_no_data data items :
  assoc "Data" items = Some (JArr []) ->
  year_step data (JsonIs (JObj items)) = Return None.
Proof.
  intros H. unfold year_step, yearly_value, returned, subscript.
  by rewrite H.
Qed.


Lemma year_requests_cons y ys :
  year_requests (y :: ys)
  = (EvSleep API_THROTTLE_WAIT :: EvGet (year_url y) None
       :: year_requests ys).
Proof. reflexivity. Qed.

Section LoopSpec.

Variable net : nat -> string -> headers -> response.

(** A loop that completes has one value for each year. *)
Lemma loop_spec_returns data ys :
  forall n acc cols,
    (loop_spec net data n acc ys).1 = Return cols ->
    cols.2 = (acc.2 ++ ys)%list /\
    length cols.1 = (length acc.1 + length ys)%nat.
Proof.
  induction ys as [|y ys IH]; intros n acc cols; cbn [loop_spec].
  - cbn. intros [= <-]. rewrite app_nil_r. split; [done|lia].
  - destruct (year_step data _) as [v| |]; cbn [fst]; [|done|done].
    intros [-> Hlen]%IH. cbn [fst snd] in *.
    rewrite <- app_assoc. split; [done|].
    rewrite Hlen, length_app. cbn. lia.
Qed.

(** With [data] unbound, a loop that completes has no value at all. *)
Lemma loop_spec_unbound ys :
  forall n acc cols,
    (loop_spec net None n acc ys).1 = Return cols ->
    cols = ((acc.1 ++ replicate (length ys) None)%list, (acc.2 ++ ys)%list).
Proof.
  induction ys as [|y ys IH]; intros n acc cols; cbn [loop_spec].
  - cbn. intros [= <-]. rewrite !app_nil_r. by destruct acc.
  - destruct (year_step None _) as [v| |] eqn:Hv; cbn [fst]; [|done|done].
    apply year_step_unbound in Hv as ->.
    intros ->%IH. cbn [fst snd]. by rewrite <- !app_assoc.
Qed.

(** The events of the loop: the requests of the first [k] years, and a
    print when the last of them failed. *)
Lemma loop_spec_events data ys :
  forall n acc,
    exists k tail,
      (k <= length ys)%nat /\
      (loop_spec net data n acc ys).2
      = (year_requests (take k ys) ++ tail)%list /\
      (tail = [] \/ exists e, tail = [EvPrint e]) /\
      (forall cols,
         (loop_spec net data n acc ys).1 = Return cols ->
         k = length ys /\ tail = []).
Proof.
  induction ys as [|y ys IH]; intros n acc; cbn [loop_spec].
  - exists 0%nat, []. cbn. repeat split; auto.
  - set (resp := net n (year_url y) None).
    destruct (year_step data resp) as [v| |] eqn:Hv.
    + destruct (IH (S n) ((acc.1 ++ [v])%list, (acc.2 ++ [y])%list))
        as (k & tail & Hk & Hev & Htail & Hret).
      exists (S k), tail. cbn [fst snd length take].
      rewrite (year_step_return_printed _ _ _ Hv), Hev.
      rewrite year_requests_cons. split; [lia|]. split; [done|].
      split; [done|]. intros cols [-> ->]%Hret. done.
    + exists 1%nat, (printed resp). cbn [fst snd length take].
      split; [lia|]. split; [by rewrite take_0|].
      split; [|done]. destruct resp; eauto.
    + exists 1%nat, (printed resp). cbn [fst snd length take].
      split; [lia|]. split; [by rewrite take_0|].
      split; [|done]. destruct resp; eauto.
Qed.


(** After years without data, a failed request stops the loop. *)
Lemma loop_spec_failed data e :
  forall i ys n acc y,
    ys !! i = Some y ->
    (forall j yj, (j < i)%nat -> ys !! j = Some yj ->
       exists items,
         net (n + j)%nat (year_url yj) None = JsonIs (JObj items) /\
         assoc "Data" items = Some (JArr [])) ->
    net (n + i)%nat (year_url y) None = GetRaises e \/
    net (n + i)%nat (year_url y) None = JsonRaises e ->
    loop_spec net data n acc ys
    = (Raise (TypeError "'NoneType' object is not subscriptable"),
       (year_requests (take (S i) ys) ++ [EvPrint e])%list).
Proof.
  induction i as [|i IH]; intros [|y0 ys] n acc y Hy Hbefore Hfail;
    try done; cbn [loop_spec].
  - injection Hy as ->. rewrite Nat.add_0_r in Hfail.
    destruct Hfail as [-> | ->]; by rewrite year_step_failed.
  - destruct (Hbefore 0%nat y0) as (items & Hdoc & Hdata); [lia|done|].
    rewrite Nat.add_0_r in Hdoc. rewrite Hdoc.
    rewrite (year_step_no_data _ _ Hdata).
    rewrite (IH ys (S n) _ y Hy).
    + cbn [fst snd printed take]. rewrite app_nil_r.
      by rewrite year_requests_cons.
    + intros j yj Hj Hyj.
      destruct (Hbefore (S j) yj) as (items' & Hdoc' & Hdata'); [lia|done|].
      rewrite Nat.add_succ_r in Hdoc'. by exists items'.
    + by rewrite Nat.add_succ_r in Hfail.
Qed.

End LoopSpec.

(** ** The aggregation cell and the table *)


Lemma years_lookup i y : years !! i = Some y -> y = year_of i /\ (i < 61)%nat.
Proof.
  unfold years. intros [-> Hi]%lookup_seqZ. unfold year_of. split; [done|lia].
Qed.


Lemma df_filter_sublist aqi year :
  map snd (df_filter aqi year) `sublist_of` year.
Proof.
  unfold df_filter. revert year.
  induction aqi as [|a aqi IH]; intros [|y year]; cbn;
    try apply sublist_nil_l.
  destruct a as [q|]; cbn.
  - destruct (Qpositive q); cbn.
    + apply sublist_skip, IH.
    + apply sublist_cons, IH.
  - apply sublist_cons, IH.
Qed.

Section Table.

Variable float_repr : float -> string.
Variable net : nat -> string -> headers -> response.

Lemma final_table_inv data w rows :
  (final_table float_repr net data w).1 = Return rows ->
  exists cols,
    (aggregation_cell float_repr net data w).1 = Return cols /\
    rows = df_filter cols.1 cols.2.
Proof.
  unfold final_table, bind.
  destruct (aggregation_cell float_repr net data w) as [[cols| |] w'];
    [|done|done].
  cbn. intros [= <-]. by exists cols.
Qed.


(** X8: as the notebook is written, with [data] never assigned, an
    aggregation that completes has [None] for every one of the 61
    years, and a table that is produced has no row, whatever the
    service answers. *)
Theorem aggregation_as_written_has_no_value :
  forall w,
    (forall cols,
       (aggregation_cell float_repr net None w).1 = Return cols ->
       cols = (replicate 61 None, years)) /\
    (forall rows,
       (final_table float_repr net None w).1 = Return rows -> rows = []).
Proof.
  intros w.
  destruct (aggregation_cell_run float_repr net None w) as (Ho & _).
  assert (forall cols,
            (aggregation_cell float_repr net None w).1 = Return cols ->
            cols = (replicate 61 None, years)) as Hcols.
  { intros cols Hc. rewrite Ho in Hc.
    by apply loop_spec_unbound in Hc as ->. }
  split; [done|].
  intros rows (cols & ->%Hcols & ->)%final_table_inv. reflexivity.
Qed.


(** X10: the cell writes only into its own copy of the template, so the
    module-level template is what it was; and its events are the
    requests of the first [k] years, each a sleep followed by a GET of
    that year's fixed URL, with one print at the end when the last
    request failed.  When the cell completes, [k] is 61 and nothing is
    printed. *)
Theorem aggregation_requests_the_years_in_order :
  forall data w,
    is_Some (heap w !! AQS_REQUEST_TEMPLATE) ->
    let r := aggregation_cell float_repr net data w in
    dict_at r.2 AQS_REQUEST_TEMPLATE = dict_at w AQS_REQUEST_TEMPLATE /\
    exists k tail,
      (k <= 61)%nat /\
      trace r.2 = (trace w ++ year_requests (take k years) ++ tail)%list /\
      (tail = [] \/ exists e, tail = [EvPrint e]) /\
      (forall cols, r.1 = Return cols -> k = 61%nat /\ tail = []).
Proof.
  intros data w Halloc%fresh_not_allocated r.
  destruct (aggregation_cell_run float_repr net data w) as (Ho & Ht & Hl).
  split; [by apply Hl|].
  destruct (loop_spec_events net data years (gets (trace w)) ([], []))
    as (k & tail & Hk & Hev & Htail & Hret).
  exists k, tail. split; [exact Hk|]. split.
  - subst r. by rewrite Ht, Hev.
  - split; [done|]. intros cols Hc. subst r. rewrite Ho in Hc.
    by apply Hret in Hc.
Qed.

(** X11: when the years before the [i]-th have no data and the request
    of the [i]-th year fails, the cell stops with a [TypeError]: the
    [None] that the client returned is subscripted.  It has sent the
    requests of the years up to that one and printed the exception. *)
Theorem failed_request_stops_the_aggregation :
  forall data w i e,
    (i < 61)%nat ->
    (forall j, (j < i)%nat ->
       exists items,
         net (gets (trace w) + j)%nat (year_url (year_of j)) None
           = JsonIs (JObj items) /\
         assoc "Data" items = Some (JArr [])) ->
    net (gets (trace w) + i)%nat (year_url (year_of i)) None = GetRaises e \/
    net (gets (trace w) + i)%nat (year_url (year_of i)) None
      = JsonRaises e ->
    let r := aggregation_cell float_repr net data w in
    r.1 = Raise (TypeError "'NoneType' object is not subscriptable") /\
    trace r.2 = (trace w ++ year_requests (take (S i) years)
                 ++ [EvPrint e])%list.
Proof.
  intros data w i e Hi Hbefore Hfail r.
  destruct (aggregation_cell_run float_repr net data w) as (Ho & Ht & _).
  assert (years !! i = Some (year_of i)) as Hy.
  { unfold years, year_of. apply lookup_seqZ_lt. lia. }
  assert (loop_spec net data (gets (trace w)) ([], []) years
          = (Raise (TypeError "'NoneType' object is not subscriptable"),
             (year_requests (take (S i) years) ++ [EvPrint e])%list)) as Hs.
  { apply (loop_spec_failed net data e i years _ _ (year_of i) Hy); [|done].
    intros j yj Hj [-> _]%years_lookup. by apply Hbefore. }
  by rewrite Hs in Ho, Ht.
Qed.

(** X13: whatever the service answers and whatever [data] is bound to,
    the years of a table that is produced are distinct years of
    1963..2023 in increasing order, and every mean in it is positive. *)
Theorem final_table_rows_are_distinct_years :
  forall data w rows,
    (final_table float_repr net data w).1 = Return rows ->
    map snd rows `sublist_of` years /\
    NoDup (map snd rows) /\
    forall q y, (q, y) ∈ rows -> (0 < q)%Q.
Proof.
  intros data w rows (cols & Hcols & ->)%final_table_inv.
  destruct (aggregation_cell_run float_repr net data w) as (Ho & _).
  rewrite Ho in Hcols. apply loop_spec_returns in Hcols as [Hyears _].
  cbn [snd app] in Hyears. rewrite Hyears.
  pose proof (df_filter_sublist cols.1 years) as Hsub.
  split; [done|]. split.
  - eapply sublist_NoDup; [apply NoDup_seqZ|exact Hsub].
  - intros q y. apply df_filter_positive.
Qed.

End Table.

(** ** Records that are skipped or malformed *)

Lemma for_each_app {A B} (body : B -> A -> M B) l1 l2 acc w :
  for_each body acc (l1 ++ l2) w
  = bind (for_each body acc l1) (fun acc' => for_each body acc' l2) w.
Proof.
  revert acc w. induction l1 as [|x l1 IH]; intros acc w; [done|].
  cbn [app for_each]. unfold bind in *.
  destruct (body acc x w) as [[acc'| |] w']; [|done|done].
  apply IH.
Qed.

Lemma for_each_skip d days :
  has_aqi_key (JObj d) = false ->
  forall acc w,
    for_each (collect_day (Some (JObj d))) acc days w = (Return acc, w).
Proof.
  intros Hd.
  assert (forall acc day w,
            collect_day (Some (JObj d)) acc day w = (Return acc, w)) as Hday.
  { intros acc day w. unfold has_aqi_key in Hd.
    unfold collect_day, keys, bind, ret. by rewrite Hd. }
  induction days as [|day days IH]; intros acc w; [done|].
  cbn [for_each]. rewrite (bind_run _ _ _ _ _ (Hday acc day w)). apply IH.
Qed.

(** X12: when [data] is bound to a dictionary without an "aqi" key,
    every record is skipped, whatever it holds, and the yearly value is
    [None]. *)
Theorem yearly_value_skips_all_when_data_lacks_aqi :
  forall d items days w,
    has_aqi_key (JObj d) = false ->
    assoc "Data" items = Some (JArr days) ->
    yearly_value (Some (JObj d)) (JObj items) w = (Return None, w).
Proof.
  intros d items days w Hd Hdata. unfold yearly_value, subscript.
  rewrite Hdata. unfold bind at 1, ret at 1. unfold bind at 1, iterate, ret at 1.
  by rewrite (bind_run _ _ _ _ _ (for_each_skip d days Hd [] w)).
Qed.

(** X14: with [data] bound to a dictionary that has an "aqi" key, a
    record without an "aqi" key stops the yearly value with a
    [KeyError], after any number of well-formed records. *)
Theorem yearly_value_raises_on_record_without_aqi :
  forall d items before vals record after w,
    has_aqi_key d = true ->
    mapM record_aqi before = Some vals ->
    assoc "aqi" record = None ->
    assoc "Data" items = Some (JArr (before ++ JObj record :: after)) ->
    yearly_value (Some d) (JObj items) w = (Raise (KeyError "aqi"), w).
Proof.
  intros d items before vals record after w Hd Hvals%mapM_Some Hrec Hdata.
  unfold yearly_value, subscript at 1. rewrite Hdata.
  unfold bind at 1, ret at 1. unfold bind at 1, iterate, ret at 1.
  apply bind_raises. rewrite for_each_app.
  rewrite (bind_run _ _ _ _ _ (for_each_collect _ _ _ _ Hd Hvals [])).
  cbn [for_each]. apply bind_raises.
  destruct d; try discriminate Hd. unfold has_aqi_key in Hd.
  unfold collect_day, keys, bind, ret. rewrite Hd.
  unfold subscript. by rewrite Hrec.
Qed.

(** ** Concrete calls and runs for the properties above *)

(** X1 at a list of the sites of a county, from the arguments and the
    untouched default template. *)
Lemma request_url_is_the_rendered_action_witness :
  exists path,
    render repr_of_zero
      (merged_list (Some "a@b") (Some "k")
         (dict_at world0 AQS_REQUEST_TEMPLATE))
      (segments_of API_ACTION_LIST_SITES) = FmtOk path /\
    request_list_info repr_of_zero net_failed (Some "a@b") (Some "k")
      None (Some API_ACTION_LIST_SITES) None None world0
    = send net_failed (API_REQUEST_URL +:+ path) None
        (list_world (Some "a@b") (Some "k") AQS_REQUEST_TEMPLATE world0).
Proof.
  apply (proj1 (request_url_is_the_rendered_action
                  repr_of_zero net_failed)
           (Some "a@b") (Some "k") None (Some API_ACTION_LIST_SITES)
           None None world0); reflexivity.
Defined.

(** X2 at a template that holds the credentials only, asked for the
    parameters of a class. *)
Lemma missing_placeholder_raises_before_io_witness :
  request_list_info repr_of_zero net_failed None None
    None (Some API_ACTION_LIST_PARAMS) (Some 1%nat) None world_bare
  = (Raise (KeyError "pclass"), list_world None None 1%nat world_bare) /\
  trace (list_world None None 1%nat world_bare) = trace world_bare.
Proof.
  apply (proj1 (missing_placeholder_raises_before_io
                  repr_of_zero net_failed)
           None None None (Some API_ACTION_LIST_PARAMS) (Some 1%nat) None
           world_bare "pclass"); reflexivity.
Defined.

(** X3 at a daily call on the default template, whose state and county
    are empty. *)
Lemma default_urls_and_unchecked_fips_witness :
  request_daily_summary repr_of_zero net_failed
    (Some "a@b") (Some "k") (Some "81102")
    (Some "19850501") (Some "19851031") None None None None None world0
  = send net_failed
      (daily_county_url "a@b" "k" "81102" "19850501" "19851031" "" "")
      None
      (daily_world (Some "a@b") (Some "k") (Some "81102")
         (Some "19850501") (Some "19851031") None
         AQS_REQUEST_TEMPLATE world0).
Proof.
  apply (proj2 (default_urls_and_unchecked_fips repr_of_zero net_failed)
           (Some "a@b") (Some "k") (Some "81102")
           (Some "19850501") (Some "19851031") None None None world0);
    first [reflexivity | discriminate].
Defined.

(** X5 at a list call on the default template. *)
Lemma repeated_call_is_idempotent_witness :
  let r1 := request_list_info repr_of_zero net_failed
              (Some "a@b") (Some "k") None None None None world0 in
  let r2 := request_list_info repr_of_zero net_failed
              (Some "a@b") (Some "k") None None None None r1.2 in
  r2.1 = r1.1 /\ forall l, dict_at r2.2 l = dict_at r1.2 l.
Proof.
  apply (proj1 (repeated_call_is_idempotent repr_of_zero net_failed
                  (fun n m url h => eq_refl))).
Defined.

(** X6 at the module-level template itself and the monitors-by-box
    action. *)
Lemma template_keys_cover_every_action_witness :
  exists path,
    py_format repr_of_zero API_ACTION_MONITORS_BOX AQS_REQUEST_TEMPLATE_init
    = FmtOk path.
Proof.
  apply (proj1 (template_keys_cover_every_action repr_of_zero net_failed)).
  - reflexivity.
  - simpl. tauto.
Defined.

(** X7 at the sites cell against a service that answers "Failed". *)
Lemma list_cells_print_data_or_response_witness :
  (list_sites_cell repr_of_zero net_failed world0).1 = Return failed_doc /\
  dict_at (list_sites_cell repr_of_zero net_failed world0).2
    AQS_REQUEST_TEMPLATE
  = dict_at world0 AQS_REQUEST_TEMPLATE.
Proof.
  destruct (proj2 (proj2 (list_cells_print_data_or_response
                            repr_of_zero net_failed)) world0)
    as [(_ & _ & Hother) Hiso].
  split.
  - apply (Hother "Failed"); [reflexivity|discriminate].
  - apply Hiso. vm_compute. eauto.
Defined.

(** X8 at a service without any data. *)
Lemma aggregation_as_written_has_no_value_witness :
  exists cols,
    (aggregation_cell repr_of_zero net_no_data None world0).1 = Return cols /\
    cols = (replicate 61 None, years).
Proof.
  eexists. split; [vm_compute; reflexivity|].
  apply (proj1 (aggregation_as_written_has_no_value
                  repr_of_zero net_no_data world0)).
  vm_compute. reflexivity.
Defined.


(** X10 at the service of [net_1985], with [data] unbound. *)
Lemma aggregation_requests_the_years_in_order_witness :
  let r := aggregation_cell repr_of_zero net_1985 None world0 in
  dict_at r.2 AQS_REQUEST_TEMPLATE = dict_at world0 AQS_REQUEST_TEMPLATE /\
  exists k tail,
    (k <= 61)%nat /\
    trace r.2 = (trace world0 ++ year_requests (take k years) ++ tail)%list /\
    (tail = [] \/ exists e, tail = [EvPrint e]) /\
    (forall cols, r.1 = Return cols -> k = 61%nat /\ tail = []).
Proof.
  apply (aggregation_requests_the_years_in_order
           repr_of_zero net_1985 None world0).
  vm_compute. eauto.
Defined.

(** X11 at a connection that breaks in 1985. *)
Lemma failed_request_stops_the_aggregation_witness :
  let r := aggregation_cell repr_of_zero net_breaks_1985 data_bound world0 in
  r.1 = Raise (TypeError "'NoneType' object is not subscriptable") /\
  trace r.2 = (trace world0 ++ year_requests (take 23 years)
               ++ [EvPrint connection_error])%list.
Proof.
  apply (failed_request_stops_the_aggregation
           repr_of_zero net_breaks_1985 data_bound world0 22
           connection_error).
  - lia.
  - intros j Hj. change (gets (trace world0) + j)%nat with j.
    unfold net_breaks_1985.
    apply Nat.ltb_lt in Hj. rewrite Hj. by eexists.
  - left. reflexivity.
Defined.

(** X12 at an empty dictionary for [data]. *)
Lemma yearly_value_skips_all_when_data_lacks_aqi_witness :
  yearly_value (Some (JObj []))
    (success_doc [daily_record (JNum 5); daily_record (JNum 15)]) world0
  = (Return None, world0).
Proof.
  apply (yearly_value_skips_all_when_data_lacks_aqi []
           _ [daily_record (JNum 5); daily_record (JNum 15)] world0);
    reflexivity.
Defined.

(** X13 at the service of [net_1985]. *)
Lemma final_table_rows_are_distinct_years_witness :
  exists rows,
    (final_table repr_of_zero net_1985 data_bound world0).1 = Return rows /\
    map snd rows `sublist_of` years /\
    NoDup (map snd rows) /\
    forall q y, (q, y) ∈ rows -> (0 < q)%Q.
Proof.
  eexists. split; [vm_compute; reflexivity|].
  apply (final_table_rows_are_distinct_years
           repr_of_zero net_1985 data_bound world0).
  vm_compute. reflexivity.
Defined.

(** X14 at a record that has only a sample duration. *)
Lemma yearly_value_raises_on_record_without_aqi_witness :
  yearly_value data_bound
    (success_doc [daily_record (JNum 5);
                  JObj [("sample_duration", JStr "24 HOUR")];
                  daily_record (JNum 15)]) world0
  = (Raise (KeyError "aqi"), world0).
Proof.
  apply (yearly_value_raises_on_record_without_aqi
           (daily_record JNull) _ [daily_record (JNum 5)] [Some 5%Q]
           [("sample_duration", JStr "24 HOUR")]
           [daily_record (JNum 15)] world0); reflexivity.
Defined.
